(** * ScheduleBuilder: a shallow embedding of [schedule_builder.py]

    The development follows the source class [ScheduleBuilder]:
    - strings are sequences of code points below 256 ([string] of [ascii]);
    - a [datetime] whose seconds are zero is the number of minutes elapsed
      since the reference date 2000-01-01 00:00 used by the source, kept
      inside the range [datetime.min .. datetime.max];
    - the [while] loop of [generate_time_slots] takes fuel, one unit per
      evaluation of the loop test, so that runs that never leave the loop
      can be told apart from runs that return or raise;
    - [self.groups] is an insertion-ordered dictionary (an association list
      with unique keys), the [activities] of a group a finite map; the
      containers given to [add_group] are taken as values;
    - methods are computations in a state and exception monad over the
      fields of [self]. *)

From Stdlib Require Import ZArith Lia Ascii String.
From stdpp Require Import base option list strings sorting gmap.

Local Open Scope Z_scope.

(** ** Exceptions and outcomes *)

Inductive exn : Type :=
| ValueError
| OverflowError.

Inductive outcome (A : Type) : Type :=
| Returned (a : A)
| Raised (e : exn)
| OutOfFuel.

Arguments Returned {A} a.
Arguments Raised {A} e.
Arguments OutOfFuel {A}.

#[global] Instance outcome_ret : MRet outcome := fun A a => Returned a.

#[global] Instance outcome_bind : MBind outcome := fun A B k m =>
  match m with
  | Returned a => k a
  | Raised e => Raised e
  | OutOfFuel => OutOfFuel
  end.

Definition or_raise {A} (e : exn) (o : option A) : outcome A :=
  match o with
  | Some a => Returned a
  | None => Raised e
  end.

(** ** Strings *)

Module Str.

Definition code (c : ascii) : N := N_of_ascii c.

(** [str.isspace] on code points below 256: the characters removed by
    [str.strip()]. *)
Definition isspace (c : ascii) : bool :=
  let n := code c in
  ((9 <=? n) && (n <=? 13) || (28 <=? n) && (n <=? 32)
   || (n =? 133) || (n =? 160))%N.

(** The white space [int()] skips around a number: as [isspace] without
    the separators 0x1c..0x1f. *)
Definition is_int_space (c : ascii) : bool :=
  let n := code c in
  ((9 <=? n) && (n <=? 13) || (n =? 32) || (n =? 133) || (n =? 160))%N.

Definition is_digit (c : ascii) : bool :=
  let n := code c in ((48 <=? n) && (n <=? 57))%N.

Definition digit_value (c : ascii) : Z := Z.of_N (code c) - 48.

Fixpoint drop_while (p : ascii -> bool) (s : string) : string :=
  match s with
  | EmptyString => EmptyString
  | String c r => if p c then drop_while p r else s
  end.

Fixpoint rev_onto (s acc : string) : string :=
  match s with
  | EmptyString => acc
  | String c r => rev_onto r (String c acc)
  end.

Definition rev (s : string) : string := rev_onto s EmptyString.

Definition lstrip (s : string) : string := drop_while isspace s.
Definition rstrip (s : string) : string := rev (drop_while isspace (rev s)).
(** [s.strip()] *)
Definition strip (s : string) : string := rstrip (lstrip s).

(** [s[:n]] and [s[n:]] for [n >= 0]. *)
Fixpoint take (n : nat) (s : string) : string :=
  match n, s with
  | S n', String c r => String c (take n' r)
  | _, _ => EmptyString
  end.

Fixpoint drop (n : nat) (s : string) : string :=
  match n, s with
  | S n', String _ r => drop n' r
  | _, _ => s
  end.

(** [s.split(' - ')]: the parts between the non-overlapping occurrences
    of the separator, found from the left; [cur] is the part being read,
    last character first. *)
Fixpoint split_from (s : string) (cur : string) : list string :=
  match s with
  | EmptyString => [rev cur]
  | String " " (String "-" (String " " r)) => rev cur :: split_from r EmptyString
  | String c r => split_from r (String c cur)
  end.

Definition split_sep (s : string) : list string := split_from s EmptyString.

(** [' - ' in s] *)
Fixpoint contains_sep (s : string) : bool :=
  match s with
  | EmptyString => false
  | String " " (String "-" (String " " _)) => true
  | String _ r => contains_sep r
  end.

(** [sep.join(l)] *)
Fixpoint join (sep : string) (l : list string) : string :=
  match l with
  | [] => EmptyString
  | [x] => x
  | x :: r => x +:+ sep +:+ join sep r
  end.

(** The digits of [int()]: single underscores are allowed between
    digits; [prev_us] tells that the character before was one. The
    result is the value read and the rest of the string. *)
Fixpoint scan_digits (s : string) (acc : Z) (prev_us : bool) : option (Z * string) :=
  match s with
  | EmptyString => if prev_us then None else Some (acc, s)
  | String c r =>
      if is_digit c then scan_digits r (10 * acc + digit_value c) false
      else if Ascii.eqb c "_" then
             (if prev_us then None else scan_digits r acc true)
      else if prev_us then None else Some (acc, s)
  end.

(** [int(s)] in base ten; [None] stands for [ValueError]. *)
Definition int (s : string) : option Z :=
  let s1 := drop_while is_int_space s in
  let '(neg, s2) :=
    match s1 with
    | String c r =>
        if Ascii.eqb c "+" then (false, r)
        else if Ascii.eqb c "-" then (true, r)
        else (false, s1)
    | EmptyString => (false, s1)
    end in
  match s2 with
  | String c _ =>
      if is_digit c then
        match scan_digits s2 0 false with
        | Some (v, rest) =>
            match drop_while is_int_space rest with
            | EmptyString => Some (if neg then - v else v)
            | _ => None
            end
        | None => None
        end
      else None
  | EmptyString => None
  end.

Definition digit_char (d : Z) : ascii := ascii_of_N (48 + Z.to_N d).

(** A number below 100 as two decimal digits, as ["%H"] and ["%M"]
    print it. *)
Definition two_digits (n : Z) : string :=
  String (digit_char (n / 10)) (String (digit_char (n mod 10)) EmptyString).

End Str.

(** ** Instants *)

Module Datetime.

(** Minutes since 2000-01-01 00:00. *)
Definition t := Z.

Definition minutes_per_day : Z := 1440.

(** 0001-01-01 00:00 and 9999-12-31 23:59, the first and last instants
    with zero seconds that a [datetime] holds. *)
Definition min : t := -1051371360.
Definition max : t := 4207593599.

Definition in_range (x : Z) : bool := (min <=? x) && (x <=? max).

(** The arguments of the constructor are read as C integers of 32
    bits. *)
Definition fits_c_int (x : Z) : bool := (-2147483648 <=? x) && (x <=? 2147483647).

(** [datetime(2000, 1, 1, hour, minute)]: [OverflowError] when an argument
    does not fit a C integer, [ValueError] when a field is out of its
    range. *)
Definition make (hour minute : Z) : outcome t :=
  if fits_c_int hour && fits_c_int minute then
    if (0 <=? hour) && (hour <=? 23) && (0 <=? minute) && (minute <=? 59)
    then Returned (hour * 60 + minute) else Raised ValueError
  else Raised OverflowError.

(** [d + timedelta(minutes=n)]; [None] stands for [OverflowError]. *)
Definition add_minutes (d : t) (n : Z) : option t :=
  if in_range (d + n) then Some (d + n) else None.

(** [d + timedelta(days=n)] *)
Definition add_days (d : t) (n : Z) : option t :=
  add_minutes d (n * minutes_per_day).

(** [d.strftime("%H%M")] *)
Definition strftime_HM (d : t) : string :=
  let clock := d mod minutes_per_day in
  Str.two_digits (clock / 60) +:+ Str.two_digits (clock mod 60).

End Datetime.

(** ** TimeAxisGenerator *)

(** The [while current <= end_dt] loop of [generate_time_slots]. *)
Fixpoint slots_loop (fuel : nat) (start_dt end_dt : Datetime.t) (interval_minutes : Z)
    (current : Datetime.t) (slots : list string) : outcome (list string) :=
  match fuel with
  | O => OutOfFuel
  | S fuel' =>
      if current <=? end_dt then
        let time_str := Datetime.strftime_HM current in
        let time_str :=
          if String.eqb time_str "0000" && (start_dt <? current)
          then "2400"%string else time_str in
        let slots := slots ++ [time_str] in
        current' ← or_raise OverflowError (Datetime.add_minutes current interval_minutes);
        slots_loop fuel' start_dt end_dt interval_minutes current' slots
      else Returned slots
  end.

(** The statements of [generate_time_slots] before the loop: the start
    instant and the end instant, moved to the next day where the source
    does so. *)
Definition axis_bounds (start_time end_time : string) : outcome (Datetime.t * Datetime.t) :=
  start_hour ← or_raise ValueError (Str.int (Str.take 2 start_time));
  start_min ← or_raise ValueError (Str.int (Str.drop 2 start_time));
  '(end_hour, end_min) ←
    (if String.eqb end_time "2400" then Returned (23, 59)
     else
       end_hour ← or_raise ValueError (Str.int (Str.take 2 end_time));
       end_min ← or_raise ValueError (Str.int (Str.drop 2 end_time));
       Returned (end_hour, end_min));
  start_dt ← Datetime.make start_hour start_min;
  end_dt ← Datetime.make end_hour end_min;
  end_dt ←
    (if (end_dt <=? start_dt) || String.eqb end_time "2400"
     then or_raise OverflowError (Datetime.add_days end_dt 1)
     else Returned end_dt);
  Returned (start_dt, end_dt).

Definition generate_time_slots (fuel : nat) (start_time end_time : string)
    (interval_minutes : Z) : outcome (list string) :=
  '(start_dt, end_dt) ← axis_bounds start_time end_time;
  slots_loop fuel start_dt end_dt interval_minutes start_dt [].

(** ** The builder's state *)

(** One entry of [self.groups]. *)
Record Group : Type := mkGroup {
  hierarchy : list string;
  leaf_name : string;
  activities : gmap string string;
  locations : list string
}.

(** The fields of a [ScheduleBuilder] instance. [groups] lists the entries
    of the dictionary in insertion order. *)
Record ScheduleBuilder : Type := mkBuilder {
  time_slots : list string;
  groups : list (string * Group);
  schedule_data : list (list string)
}.

(** [ScheduleBuilder()] *)
Definition init : ScheduleBuilder :=
  {| time_slots := []; groups := []; schedule_data := [] |}.

(** Methods: the state after the call is kept when an exception is
    raised, as for a Python object. *)
Definition M (A : Type) : Type := ScheduleBuilder -> outcome A * ScheduleBuilder.

#[global] Instance M_ret : MRet M := fun A a st => (Returned a, st).

#[global] Instance M_bind : MBind M := fun A B k m st =>
  match m st with
  | (Returned a, st') => k a st'
  | (Raised e, st') => (Raised e, st')
  | (OutOfFuel, st') => (OutOfFuel, st')
  end.

Definition get : M ScheduleBuilder := fun st => (Returned st, st).
Definition put (st' : ScheduleBuilder) : M unit := fun _ => (Returned (), st').
Definition raise {A} (e : exn) : M A := fun st => (Raised e, st).
Definition lift {A} (o : outcome A) : M A := fun st => (o, st).

Definition set_time_slots (ts : list string) : M unit :=
  st ← get;
  put {| time_slots := ts; groups := groups st; schedule_data := schedule_data st |}.

Definition set_groups (gs : list (string * Group)) : M unit :=
  st ← get;
  put {| time_slots := time_slots st; groups := gs; schedule_data := schedule_data st |}.

(** ** Insertion-ordered dictionaries *)

Module Dict.
Section Dict.
Context {K V : Type} `{EqDecision K}.

(** [d.get(k)] *)
Fixpoint lookup (k : K) (d : list (K * V)) : option V :=
  match d with
  | [] => None
  | (k', v) :: r => if decide (k = k') then Some v else lookup k r
  end.

(** [k in d] *)
Definition mem (k : K) (d : list (K * V)) : bool := bool_decide (is_Some (lookup k d)).

(** [d[k] = v]: an existing key keeps its place, a new one goes last. *)
Fixpoint set (k : K) (v : V) (d : list (K * V)) : list (K * V) :=
  match d with
  | [] => [(k, v)]
  | (k', v') :: r => if decide (k = k') then (k', v) :: r else (k', v') :: set k v r
  end.

(** The entry of [k] changed in place by [f]. *)
Fixpoint update (k : K) (f : V -> V) (d : list (K * V)) : list (K * V) :=
  match d with
  | [] => []
  | (k', v') :: r => if decide (k = k') then (k', f v') :: r else (k', v') :: update k f r
  end.

Definition keys (d : list (K * V)) : list K := d.*1.
End Dict.
End Dict.

(** ** HierarchyParser *)

Definition parse_hierarchy (group_name : string) : list string * string :=
  if Str.contains_sep group_name then
    let parts := Str.strip <$> Str.split_sep group_name in
    (removelast parts, List.last parts EmptyString)
  else ([], group_name).

(** ** GroupStore *)

(** [x or {}] and [x or []]: [None] and the empty container are replaced
    by a new empty container. *)
Definition or_empty {A} (empty : A) (x : option A) : A := default empty x.

Definition add_group (group_name : string) (acts : option (gmap string string))
    (locs : option (list string)) : M unit :=
  let '(hier, leaf) := parse_hierarchy group_name in
  st ← get;
  if negb (Dict.mem group_name (groups st)) then
    set_groups (Dict.set group_name
                  {| hierarchy := hier; leaf_name := leaf;
                     activities := or_empty ∅ acts;
                     locations := or_empty [] locs |} (groups st))
  else mret ().

Definition set_time_period (fuel : nat) (start_time end_time : string)
    (interval_minutes : Z) : M unit :=
  slots ← lift (generate_time_slots fuel start_time end_time interval_minutes);
  set_time_slots slots.

Definition set_activity (time_slot activity : string) (g : Group) : Group :=
  {| hierarchy := hierarchy g; leaf_name := leaf_name g;
     activities := <[time_slot := activity]> (activities g);
     locations := locations g |}.

Definition append_location (location : string) (g : Group) : Group :=
  {| hierarchy := hierarchy g; leaf_name := leaf_name g;
     activities := activities g;
     locations := locations g ++ [location] |}.

Definition group_locations (group_name : string) (st : ScheduleBuilder) : list string :=
  from_option locations [] (Dict.lookup group_name (groups st)).

Definition add_activity (group_name time_slot activity location : string) : M unit :=
  st ← get;
  (if negb (Dict.mem group_name (groups st)) then add_group group_name None None
   else mret ());;
  st ← get;
  set_groups (Dict.update group_name (set_activity time_slot activity) (groups st));;
  st ← get;
  if negb (String.eqb location "")
     && negb (bool_decide (location ∈ group_locations group_name st))
  then set_groups (Dict.update group_name (append_location location) (groups st))
  else mret ().

(** ** TableBuilder *)

(** The order of Python tuples of strings: lexicographic, strings by code
    point, a proper prefix before the longer tuple. *)
Fixpoint key_compare (a b : list string) : comparison :=
  match a, b with
  | [], [] => Eq
  | [], _ :: _ => Lt
  | _ :: _, [] => Gt
  | x :: a', y :: b' =>
      match String.compare x y with
      | Eq => key_compare a' b'
      | c => c
      end
  end.

Definition key_le (x y : list string * Group) : Prop :=
  key_compare x.1 y.1 ≠ Gt.

#[global] Instance key_le_dec x y : Decision (key_le x y).
Proof. unfold key_le. apply _. Defined.

(** The key under which a group is sorted and rendered. *)
Definition hierarchy_key (group_name : string) (group_data : Group) : list string :=
  match hierarchy group_data with
  | [] => [group_name]
  | hier => hier ++ [leaf_name group_data]
  end.

(** The dictionary [hierarchy_groups] after the first loop over
    [self.groups.items()]; [acc] is its value before the loop. *)
Definition group_by_key (acc : list (list string * Group))
    (gs : list (string * Group)) : list (list string * Group) :=
  foldl (fun hg '(group_name, group_data) =>
           Dict.set (hierarchy_key group_name group_data) group_data hg) acc gs.

(** [sorted(hierarchy_groups.items())]: the keys of a dictionary differ
    pairwise, so the items are ordered by their keys alone. *)
Definition sorted_items (hg : list (list string * Group)) : list (list string * Group) :=
  merge_sort key_le hg.

Definition sorted_groups (st : ScheduleBuilder) : list (list string * Group) :=
  sorted_items (group_by_key [] (groups st)).

(** [current_top_level] and [current_second_level]; [None] as in the
    source. *)
Definition tracker : Type := option string * option string.

(** [label if label != current else ''] *)
Definition span (label : string) (current : option string) : string :=
  if decide (Some label = current) then EmptyString else label.

(** The three prefix cells of a row and the values tracked after it. *)
Definition row_prefix (cur : tracker) (group_key : list string) (leaf : string)
  : (string * string * string) * tracker :=
  match group_key with
  | [k0] => ((k0, EmptyString, EmptyString), (Some k0, None))
  | [k0; k1] => ((span k0 cur.1, k1, EmptyString), (Some k0, Some k1))
  | [k0; k1; k2] => ((span k0 cur.1, span k1 cur.2, k2), (Some k0, Some k1))
  | _ => ((EmptyString, EmptyString, leaf), cur)
  end.

(** The third cell with the locations of the group. *)
Definition annotate (cell : string) (locs : list string) : string :=
  match locs with
  | [] => cell
  | _ =>
      if negb (String.eqb cell "") then cell +:+ " (" +:+ Str.join ", " locs +:+ ")"
      else "(" +:+ Str.join ", " locs +:+ ")"
  end.

(** One pass of the rendering loop: the row of a group and the tracked
    values after it. *)
Definition render_row (slots : list string) (cur : tracker)
    (item : list string * Group) : list string * tracker :=
  let '(group_key, group_data) := item in
  let '((c0, c1, c2), cur') := row_prefix cur group_key (leaf_name group_data) in
  ([c0; c1; annotate c2 (locations group_data)]
     ++ ((fun time_slot => default EmptyString (activities group_data !! time_slot)) <$> slots),
   cur').

(** The loop over [sorted_groups]: the rows appended to [schedule]. *)
Fixpoint render_rows (slots : list string) (cur : tracker)
    (items : list (list string * Group)) : list (list string) :=
  match items with
  | [] => []
  | item :: rest =>
      let '(row, cur') := render_row slots cur item in
      row :: render_rows slots cur' rest
  end.

(** The tracked values after the loop has gone over [items]. *)
Definition tracker_after (slots : list string) (cur : tracker)
    (items : list (list string * Group)) : tracker :=
  foldl (fun c item => (render_row slots c item).2) cur items.

Definition build_schedule_structure : M (list (list string)) :=
  st ← get;
  match time_slots st with
  | [] => raise ValueError
  | _ =>
      let header := [EmptyString; EmptyString; EmptyString] ++ time_slots st in
      let schedule :=
        [header;
         [EmptyString; EmptyString; EmptyString]
           ++ replicate (length (time_slots st)) EmptyString] in
      let hierarchy_groups := group_by_key [] (groups st) in
      let sorted_groups := sorted_items hierarchy_groups in
      mret (schedule ++ render_rows (time_slots st) (None, None) sorted_groups)
  end.

(** The state after a method call, and its result. *)
Definition exec {A} (m : M A) (st : ScheduleBuilder) : ScheduleBuilder := (m st).2.
Definition result {A} (m : M A) (st : ScheduleBuilder) : outcome A := (m st).1.

(** * Vocabulary of the properties *)

(** The label the loop emits for the instant [t] of an axis that starts at
    [start_dt]. *)
Definition slot_label (start_dt t : Datetime.t) : string :=
  if (t mod 1440 =? 0) && (start_dt <? t) then "2400"%string
  else Datetime.strftime_HM t.

(** The labels of the instants [current], [current + interval], ... *)
Definition labels_from (start_dt : Datetime.t) (interval_minutes : Z)
    (current : Datetime.t) (n : nat) : list string :=
  (fun k : nat => slot_label start_dt (current + Z.of_nat k * interval_minutes)) <$> seq 0 n.

(** A run of the generator ends with the outcome [out], whatever fuel it
    is given beyond some amount. *)
Definition ends_with (start_time end_time : string) (interval_minutes : Z)
    (out : outcome (list string)) : Prop :=
  out <> OutOfFuel /\
  exists fuel : nat, forall fuel' : nat, (fuel <= fuel')%nat ->
    generate_time_slots fuel' start_time end_time interval_minutes = out.

Definition terminates (start_time end_time : string) (interval_minutes : Z) : Prop :=
  exists out, ends_with start_time end_time interval_minutes out.

(** The loop is still running after any number of passes. *)
Definition diverges (start_time end_time : string) (interval_minutes : Z) : Prop :=
  forall fuel : nat,
    generate_time_slots fuel start_time end_time interval_minutes = OutOfFuel.

(** [s] is made of four decimal digits that give the hour [h] and the
    minute [m] of a clock time. *)
Definition HHMM (s : string) (h m : Z) : Prop :=
  exists c1 c2 c3 c4,
    s = String c1 (String c2 (String c3 (String c4 EmptyString)))
    /\ Str.is_digit c1 = true /\ Str.is_digit c2 = true
    /\ Str.is_digit c3 = true /\ Str.is_digit c4 = true
    /\ h = 10 * Str.digit_value c1 + Str.digit_value c2
    /\ m = 10 * Str.digit_value c3 + Str.digit_value c4
    /\ h <= 23 /\ m <= 59.

(** The group is in the store. *)
Definition registered (group_name : string) (st : ScheduleBuilder) : Prop :=
  Dict.mem group_name (groups st) = true.

(** The activity text stored for a group and a time slot. *)
Definition activity_at (group_name time_slot : string) (st : ScheduleBuilder)
  : option string :=
  g ← Dict.lookup group_name (groups st); activities g !! time_slot.

(** The first two labels of a key. *)
Definition top_label (group_key : list string) : string := hd EmptyString group_key.
Definition second_label (group_key : list string) : string := nth 1 group_key EmptyString.

(** [s] is made of four decimal digits read as the numbers [h] and [m],
    whatever their values. *)
Definition four_digits (s : string) (h m : Z) : Prop :=
  exists c1 c2 c3 c4,
    s = String c1 (String c2 (String c3 (String c4 EmptyString)))
    /\ Str.is_digit c1 = true /\ Str.is_digit c2 = true
    /\ Str.is_digit c3 = true /\ Str.is_digit c4 = true
    /\ h = 10 * Str.digit_value c1 + Str.digit_value c2
    /\ m = 10 * Str.digit_value c3 + Str.digit_value c4.

(** The number of slots of an axis from [start_dt] to [end_dt]. *)
Definition slot_count (start_dt end_dt : Datetime.t) (interval_minutes : Z) : nat :=
  Z.to_nat ((end_dt - start_dt) / interval_minutes + 1).

(** [s.count(' - ')]: the number of non-overlapping occurrences of the
    separator, counted from the left. *)
Fixpoint count_sep (s : string) : nat :=
  match s with
  | EmptyString => 0
  | String " " (String "-" (String " " r)) => S (count_sep r)
  | String _ r => count_sep r
  end.

(** The entry of a group holds the hierarchy and the leaf parsed from its
    name. *)
Definition entry_parsed (entry : string * Group) : Prop :=
  (hierarchy entry.2, leaf_name entry.2) = parse_hierarchy entry.1.


(** The entry [add_group] makes for a new name. *)
Definition new_group (group_name : string) (acts : option (gmap string string))
    (locs : option (list string)) : Group :=
  {| hierarchy := (parse_hierarchy group_name).1;
     leaf_name := (parse_hierarchy group_name).2;
     activities := or_empty ∅ acts;
     locations := or_empty [] locs |}.

(** The items of [hierarchy_groups] when no two groups share a key: the
    groups under their sort keys, in the order of the store. *)
Definition keyed (gs : list (string * Group)) : list (list string * Group) :=
  (fun entry => (hierarchy_key entry.1 entry.2, entry.2)) <$> gs.

(** The cell of a group for a time slot. *)
Definition activity_cell (group_data : Group) (time_slot : string) : string :=
  default EmptyString (activities group_data !! time_slot).

(** * Properties *)

(** ** The model on the examples of the source *)

Example parse_hierarchy_three_levels :
  parse_hierarchy "Players - Planners - AOs" = (["Players"; "Planners"], "AOs")%string.
Proof. reflexivity. Qed.

Example parse_hierarchy_top_level : parse_hierarchy "Solo" = ([], "Solo"%string).
Proof. reflexivity. Qed.

Example generate_0530_0630 :
  generate_time_slots 4 "0530" "0630" 30 = Returned ["0530"; "0600"; "0630"]%string.
Proof. reflexivity. Qed.

Example int_examples :
  Str.int "05" = Some 5 /\ Str.int " +1_0 " = Some 10 /\ Str.int "-7" = Some (-7)
  /\ Str.int "" = None /\ Str.int "1__0" = None /\ Str.int "5 5" = None.
Proof. repeat split. Qed.

(** The table of the groups of [create_example_schedule], on a short
    axis. *)
Example example_schedule_table :
  result build_schedule_structure
    (exec (set_time_period 4 "0630" "0730" 30;;
           add_group "Players - Echelon 2 & 3 - CPF" None None;;
           add_activity "Players - Echelon 2 & 3 - CPF" "0630" "SAP CUB" "";;
           add_group "Players - Echelon 2 & 3 - Commanders" None None;;
           add_activity "Players - Echelon 2 & 3 - Commanders" "1200" "Lunch" "";;
           add_group "Players - Planners - Leads" None None;;
           add_activity "Players - Planners - Leads" "0700" "CUB" "") init)
  = Returned [[""; ""; ""; "0630"; "0700"; "0730"];
              [""; ""; ""; ""; ""; ""];
              ["Players"; "Echelon 2 & 3"; "CPF"; "SAP CUB"; ""; ""];
              [""; ""; "Commanders"; ""; ""; ""];
              [""; "Planners"; "Leads"; ""; "CUB"; ""]]%string.
Proof. vm_compute. reflexivity. Qed.

(** ** Clock labels *)

Lemma digit_char_zero d : 0 <= d < 10 -> Str.digit_char d = "0"%char -> d = 0.
Proof.
  intros Hd H.
  assert (Hc : d = 0 \/ d = 1 \/ d = 2 \/ d = 3 \/ d = 4 \/ d = 5 \/ d = 6
               \/ d = 7 \/ d = 8 \/ d = 9) by lia.
  destruct Hc as [->|[->|[->|[->|[->|[->|[->|[->|[->| ->]]]]]]]]];
    first [reflexivity | discriminate H].
Qed.

Lemma two_digits_zero n : 0 <= n < 100 -> Str.two_digits n = "00"%string -> n = 0.
Proof.
  intros Hn H. unfold Str.two_digits in H. injection H as H1 H0.
  apply digit_char_zero in H1; [|split; [apply Z.div_pos; lia | apply Z.div_lt_upper_bound; lia]].
  apply digit_char_zero in H0; [|apply Z.mod_pos_bound; lia].
  rewrite (Z.div_mod n 10) by lia. lia.
Qed.

(** The label of an instant is ["0000"] exactly when the instant is a
    midnight. *)
Lemma strftime_midnight (d : Datetime.t) :
  Datetime.strftime_HM d = "0000"%string <-> d mod 1440 = 0.
Proof.
  unfold Datetime.strftime_HM, Datetime.minutes_per_day. split.
  - intros H.
    pose proof (Z.mod_pos_bound d 1440 ltac:(lia)) as Hb.
    set (c := d mod 1440) in *.
    assert (Hh : 0 <= c / 60 < 24)
      by (split; [apply Z.div_pos; lia | apply Z.div_lt_upper_bound; lia]).
    pose proof (Z.mod_pos_bound c 60 ltac:(lia)) as Hm.
    unfold Str.two_digits in H. cbn [String.append] in H.
    injection H as E1 E2 E3 E4.
    assert (Str.two_digits (c / 60) = "00"%string /\ Str.two_digits (c mod 60) = "00"%string)
      as [H1 H2] by (unfold Str.two_digits; rewrite E1, E2, E3, E4; split; reflexivity).
    apply two_digits_zero in H1; [|lia]. apply two_digits_zero in H2; [|lia].
    rewrite (Z.div_mod c 60) by lia. lia.
  - intros ->. reflexivity.
Qed.

Lemma slot_label_code start_dt t :
  (if String.eqb (Datetime.strftime_HM t) "0000" && (start_dt <? t)
   then "2400"%string else Datetime.strftime_HM t) = slot_label start_dt t.
Proof.
  unfold slot_label.
  destruct (String.eqb_spec (Datetime.strftime_HM t) "0000") as [E|E];
    destruct (Z.eqb_spec (t mod 1440) 0) as [E'|E']; try reflexivity.
  - apply strftime_midnight in E. contradiction.
  - apply strftime_midnight in E'. contradiction.
Qed.

(** ** The emission loop *)

Section Loop.
Variables (start_dt end_dt : Datetime.t) (interval_minutes : Z).

Local Abbreviation loop fuel := (slots_loop fuel start_dt end_dt interval_minutes).

Lemma slots_loop_step fuel current slots :
  loop (S fuel) current slots =
  if current <=? end_dt then
    match Datetime.add_minutes current interval_minutes with
    | Some current' => loop fuel current' (slots ++ [slot_label start_dt current])
    | None => Raised OverflowError
    end
  else Returned slots.
Proof.
  cbn [slots_loop]. rewrite slot_label_code.
  destruct (current <=? end_dt); [|reflexivity].
  destruct (Datetime.add_minutes current interval_minutes); reflexivity.
Qed.

Lemma add_minutes_Some current n current' :
  Datetime.add_minutes current n = Some current' ->
  current' = current + n /\ Datetime.min <= current + n <= Datetime.max.
Proof.
  unfold Datetime.add_minutes, Datetime.in_range. intros H.
  destruct (Datetime.min <=? current + n) eqn:E1;
    destruct (current + n <=? Datetime.max) eqn:E2; simpl in H; try discriminate.
  injection H as <-. lia.
Qed.

Lemma add_minutes_None current n :
  Datetime.add_minutes current n = None ->
  current + n < Datetime.min \/ Datetime.max < current + n.
Proof.
  unfold Datetime.add_minutes, Datetime.in_range. intros H.
  destruct (Datetime.min <=? current + n) eqn:E1;
    destruct (current + n <=? Datetime.max) eqn:E2; simpl in H; try discriminate; lia.
Qed.

Lemma labels_from_S current n :
  labels_from start_dt interval_minutes current (S n) =
  slot_label start_dt current :: labels_from start_dt interval_minutes (current + interval_minutes) n.
Proof.
  unfold labels_from. cbn [seq fmap list_fmap]. f_equal.
  - f_equal. lia.
  - rewrite <- fmap_S_seq, <- list_fmap_compose.
    apply list_fmap_ext. intros _ k _. cbn. f_equal. lia.
Qed.

(** What a run that leaves the loop returns: the labels of every
    instant from [current] on, one interval apart, up to the last one
    that is not after [end_dt]. *)
Lemma slots_loop_returned fuel : forall current slots out,
  loop fuel current slots = Returned out ->
  exists n : nat,
    out = slots ++ labels_from start_dt interval_minutes current n
    /\ (forall k : nat, (k < n)%nat -> current + Z.of_nat k * interval_minutes <= end_dt)
    /\ end_dt < current + Z.of_nat n * interval_minutes.
Proof.
  induction fuel as [|fuel IH]; intros current slots out H; [discriminate|].
  rewrite slots_loop_step in H.
  destruct (Z.leb_spec current end_dt) as [Hle|Hgt].
  - destruct (Datetime.add_minutes current interval_minutes) as [c'|] eqn:Ea;
      [|discriminate].
    apply add_minutes_Some in Ea as [-> _].
    apply IH in H as (n & -> & Hin & Hout).
    exists (S n). rewrite labels_from_S, <- app_assoc. split; [reflexivity|]. split.
    + intros [|k] Hk; [lia|]. specialize (Hin k ltac:(lia)). lia.
    + lia.
  - injection H as <-. exists 0%nat. cbn. rewrite app_nil_r. repeat split; [|lia].
    intros k Hk. lia.
Qed.

(** More fuel does not change the outcome of a run that ended. *)
Lemma slots_loop_more_fuel fuel : forall extra current slots out,
  loop fuel current slots = out -> out <> OutOfFuel ->
  loop (fuel + extra) current slots = out.
Proof.
  induction fuel as [|fuel IH]; intros extra current slots out H Hout.
  - cbn in H. congruence.
  - replace (S fuel + extra)%nat with (S (fuel + extra)) by lia.
    rewrite slots_loop_step in *.
    destruct (current <=? end_dt); [|assumption].
    destruct (Datetime.add_minutes current interval_minutes); [|assumption].
    apply IH; assumption.
Qed.

(** With a positive interval the distance to [end_dt] bounds the number
    of passes. *)
Lemma slots_loop_terminates fuel : forall current slots,
  1 <= interval_minutes ->
  (Z.to_nat (end_dt - current + 1) < fuel)%nat ->
  loop fuel current slots <> OutOfFuel.
Proof.
  induction fuel as [|fuel IH]; intros current slots Hi Hf; [lia|].
  rewrite slots_loop_step.
  destruct (Z.leb_spec current end_dt) as [Hle|Hgt]; [|discriminate].
  destruct (Datetime.add_minutes current interval_minutes) as [c'|] eqn:Ea;
    [|discriminate].
  apply add_minutes_Some in Ea as [-> _]. apply IH; lia.
Qed.

(** With a zero interval the loop is never left. *)
Lemma slots_loop_zero_diverges fuel : forall current slots,
  interval_minutes = 0 ->
  current <= end_dt -> Datetime.min <= current <= Datetime.max ->
  loop fuel current slots = OutOfFuel.
Proof.
  induction fuel as [|fuel IH]; intros current slots Hi Hle Hr; [reflexivity|].
  rewrite slots_loop_step.
  destruct (Z.leb_spec current end_dt) as [_|Hgt]; [|lia].
  unfold Datetime.add_minutes, Datetime.in_range. subst interval_minutes.
  rewrite Z.add_0_r.
  destruct (Z.leb_spec Datetime.min current); [|lia].
  destruct (Z.leb_spec current Datetime.max); [|lia].
  cbn. apply IH; auto.
Qed.

(** With an interval that is not positive the loop never returns. *)
Lemma slots_loop_nonpositive_no_return fuel : forall current slots out,
  interval_minutes <= 0 -> current <= end_dt ->
  loop fuel current slots <> Returned out.
Proof.
  induction fuel as [|fuel IH]; intros current slots out Hi Hle; [discriminate|].
  rewrite slots_loop_step.
  destruct (Z.leb_spec current end_dt) as [_|Hgt]; [|lia].
  destruct (Datetime.add_minutes current interval_minutes) as [c'|] eqn:Ea;
    [|discriminate].
  apply add_minutes_Some in Ea as [-> _]. apply IH; lia.
Qed.

(** With a negative interval the running instant leaves the range of
    [datetime] after finitely many passes. *)
Lemma slots_loop_negative_overflows fuel : forall current slots,
  interval_minutes < 0 -> current <= end_dt ->
  (Z.to_nat (current - Datetime.min) < fuel)%nat ->
  loop fuel current slots = Raised OverflowError.
Proof.
  induction fuel as [|fuel IH]; intros current slots Hi Hle Hf; [lia|].
  rewrite slots_loop_step.
  destruct (Z.leb_spec current end_dt) as [_|Hgt]; [|lia].
  destruct (Datetime.add_minutes current interval_minutes) as [c'|] eqn:Ea;
    [|reflexivity].
  apply add_minutes_Some in Ea as [-> Hr]. apply IH; lia.
Qed.

End Loop.

(** ** The bounds of the axis *)

Lemma make_Some hour minute d :
  Datetime.make hour minute = Returned d ->
  d = hour * 60 + minute /\ 0 <= hour <= 23 /\ 0 <= minute <= 59.
Proof.
  unfold Datetime.make. intros H.
  destruct (Datetime.fits_c_int hour && Datetime.fits_c_int minute);
    [|discriminate].
  destruct (Z.leb_spec 0 hour), (Z.leb_spec hour 23), (Z.leb_spec 0 minute),
    (Z.leb_spec minute 59); cbn in H; try discriminate.
  injection H as <-. lia.
Qed.

Lemma make_clock hour minute :
  0 <= hour <= 23 -> 0 <= minute <= 59 ->
  Datetime.make hour minute = Returned (hour * 60 + minute).
Proof.
  intros Hh Hm. unfold Datetime.make, Datetime.fits_c_int.
  repeat match goal with
         | |- context [?x <=? ?y] => destruct (Z.leb_spec x y); [|lia]
         end.
  reflexivity.
Qed.

(** Moving a clock time of the reference day to the next day stays in
    range. *)
Lemma add_days_next d :
  0 <= d <= 1439 -> Datetime.add_days d 1 = Some (d + 1440).
Proof.
  intros Hd. unfold Datetime.add_days, Datetime.add_minutes, Datetime.in_range,
    Datetime.minutes_per_day, Datetime.min, Datetime.max.
  destruct (Z.leb_spec (-1051371360) (d + 1 * 1440)); [|lia].
  destruct (Z.leb_spec (d + 1 * 1440) 4207593599); [|lia].
  reflexivity.
Qed.

(** The constructor returns or raises. *)
Lemma make_OutOfFuel hour minute : Datetime.make hour minute <> OutOfFuel.
Proof.
  unfold Datetime.make. destruct (_ && _); [|discriminate].
  destruct (_ && _); discriminate.
Qed.

Lemma make_end_of_day : Datetime.make 23 59 = Returned 1439.
Proof. reflexivity. Qed.

Section Bounds.
#[local] Opaque Str.int Str.take Str.drop Datetime.make Datetime.add_days String.eqb.

(** The loop starts at a clock time of the reference day and the end
    instant is not before it. *)
Lemma axis_bounds_range start_time end_time start_dt end_dt :
  axis_bounds start_time end_time = Returned (start_dt, end_dt) ->
  0 <= start_dt <= 1439 /\ start_dt <= end_dt <= 2879.
Proof.
  unfold axis_bounds. intros H. cbn in H.
  destruct (Str.int (Str.take 2 start_time)) as [sh|]; cbn in H; [|discriminate].
  destruct (Str.int (Str.drop 2 start_time)) as [sm|]; cbn in H; [|discriminate].
  destruct (String.eqb end_time "2400") eqn:E24; cbn in H.
  - destruct (Datetime.make sh sm) as [a|err|] eqn:Ea; cbn in H; try discriminate.
    apply make_Some in Ea as (-> & Hh & Hm).
    rewrite make_end_of_day in H. cbn in H.
    rewrite orb_true_r, add_days_next in H by lia. cbn in H. injection H as <- <-.
    lia.
  - destruct (Str.int (Str.take 2 end_time)) as [eh|]; cbn in H; [|discriminate].
    destruct (Str.int (Str.drop 2 end_time)) as [em|]; cbn in H; [|discriminate].
    destruct (Datetime.make sh sm) as [a|err|] eqn:Ea; cbn in H; try discriminate.
    destruct (Datetime.make eh em) as [b|err|] eqn:Eb; cbn in H; try discriminate.
    apply make_Some in Ea as (-> & Hh & Hm). apply make_Some in Eb as (-> & Hh' & Hm').
    rewrite orb_false_r in H.
    destruct (Z.leb_spec (eh * 60 + em) (sh * 60 + sm)) as [Hle|Hgt].
    + rewrite add_days_next in H by lia. cbn in H. injection H as <- <-. lia.
    + cbn in H. injection H as <- <-. lia.
Qed.

(** The statements before the loop end, with bounds or with an
    exception. *)
Lemma axis_bounds_ends start_time end_time :
  (exists bounds, axis_bounds start_time end_time = Returned bounds)
  \/ exists e, axis_bounds start_time end_time = Raised e.
Proof.
  unfold axis_bounds. cbn.
  destruct (Str.int (Str.take 2 start_time)) as [sh|]; cbn; [|eauto].
  destruct (Str.int (Str.drop 2 start_time)) as [sm|]; cbn; [|eauto].
  destruct (String.eqb end_time "2400") eqn:E24; cbn.
  - destruct (Datetime.make sh sm) as [a|err|] eqn:Ea; cbn;
      [|eauto|destruct (make_OutOfFuel _ _ Ea)].
    apply make_Some in Ea as (-> & Hh & Hm).
    rewrite make_end_of_day. cbn.
    rewrite orb_true_r, add_days_next by lia. cbn.
    left. eexists. reflexivity.
  - destruct (Str.int (Str.take 2 end_time)) as [eh|]; cbn; [|eauto].
    destruct (Str.int (Str.drop 2 end_time)) as [em|]; cbn; [|eauto].
    destruct (Datetime.make sh sm) as [a|err|] eqn:Ea; cbn;
      [|eauto|destruct (make_OutOfFuel _ _ Ea)].
    destruct (Datetime.make eh em) as [b|err|] eqn:Eb; cbn;
      [|eauto|destruct (make_OutOfFuel _ _ Eb)].
    apply make_Some in Ea as (-> & Hh & Hm). apply make_Some in Eb as (-> & Hh' & Hm').
    rewrite orb_false_r.
    destruct (Z.leb_spec (eh * 60 + em) (sh * 60 + sm)) as [Hle|Hgt].
    + rewrite add_days_next by lia. cbn. left. eexists. reflexivity.
    + cbn. left. eexists. reflexivity.
Qed.

End Bounds.

Lemma generate_time_slots_bounds fuel start_time end_time interval_minutes start_dt end_dt :
  axis_bounds start_time end_time = Returned (start_dt, end_dt) ->
  generate_time_slots fuel start_time end_time interval_minutes =
  slots_loop fuel start_dt end_dt interval_minutes start_dt [].
Proof. unfold generate_time_slots. intros ->. reflexivity. Qed.

Lemma generate_terminates_positive start_time end_time interval_minutes :
  1 <= interval_minutes -> terminates start_time end_time interval_minutes.
Proof.
  intros Hi. unfold terminates, ends_with.
  destruct (axis_bounds_ends start_time end_time) as [[[a b] Hb]|[e Hb]].
  - set (fuel := S (Z.to_nat (b - a + 1))).
    exists (slots_loop fuel a b interval_minutes a []). split.
    + apply slots_loop_terminates; [assumption | unfold fuel; lia].
    + exists fuel. intros fuel' Hf.
      rewrite (generate_time_slots_bounds _ _ _ _ _ _ Hb).
      replace fuel' with (fuel + (fuel' - fuel))%nat by lia.
      apply slots_loop_more_fuel; [reflexivity|].
      apply slots_loop_terminates; [assumption | unfold fuel; lia].
  - exists (Raised e). split; [discriminate|].
    exists 0%nat. intros fuel' _. unfold generate_time_slots. rewrite Hb. reflexivity.
Qed.

Lemma generate_zero_diverges start_time end_time bounds :
  axis_bounds start_time end_time = Returned bounds ->
  diverges start_time end_time 0.
Proof.
  destruct bounds as [a b]. intros Hb fuel.
  rewrite (generate_time_slots_bounds _ _ _ _ _ _ Hb).
  apply axis_bounds_range in Hb.
  apply slots_loop_zero_diverges; [reflexivity | lia |].
  unfold Datetime.min, Datetime.max. lia.
Qed.

Lemma generate_negative_overflows start_time end_time interval_minutes bounds :
  axis_bounds start_time end_time = Returned bounds ->
  interval_minutes < 0 ->
  ends_with start_time end_time interval_minutes (Raised OverflowError).
Proof.
  destruct bounds as [a b]. intros Hb Hi. split; [discriminate|].
  exists (S (Z.to_nat (a - Datetime.min))). intros fuel' Hf.
  rewrite (generate_time_slots_bounds _ _ _ _ _ _ Hb).
  apply axis_bounds_range in Hb.
  apply slots_loop_negative_overflows; [assumption | lia | lia].
Qed.

Lemma generate_nonpositive_no_return fuel start_time end_time interval_minutes slots :
  interval_minutes <= 0 ->
  generate_time_slots fuel start_time end_time interval_minutes <> Returned slots.
Proof.
  intros Hi H. unfold generate_time_slots in H.
  destruct (axis_bounds start_time end_time) as [[a b]| |] eqn:Hb; cbn in H;
    try discriminate.
  apply axis_bounds_range in Hb.
  revert H. apply slots_loop_nonpositive_no_return; [assumption | lia].
Qed.

(** ** Strings in the format "HHMM" *)

Lemma digit_facts c :
  Str.is_digit c = true ->
  Str.is_int_space c = false /\ Ascii.eqb c "_" = false
  /\ Ascii.eqb c "+" = false /\ Ascii.eqb c "-" = false
  /\ 0 <= Str.digit_value c <= 9.
Proof.
  destruct c as [[] [] [] [] [] [] [] []]; intros H; try discriminate H;
    repeat split; try reflexivity; vm_compute; discriminate.
Qed.

Lemma int_two_digits c1 c2 :
  Str.is_digit c1 = true -> Str.is_digit c2 = true ->
  Str.int (String c1 (String c2 EmptyString))
  = Some (10 * Str.digit_value c1 + Str.digit_value c2).
Proof.
  intros H1 H2.
  destruct (digit_facts c1 H1) as (Hs1 & _ & Hp1 & Hm1 & _).
  unfold Str.int. cbn [Str.drop_while]. rewrite Hs1, Hp1, Hm1, H1.
  cbn [Str.scan_digits]. rewrite H1, H2. cbn [Str.drop_while].
  f_equal; lia.
Qed.

Lemma HHMM_parts s h m :
  HHMM s h m ->
  Str.int (Str.take 2 s) = Some h /\ Str.int (Str.drop 2 s) = Some m
  /\ Datetime.make h m = Returned (h * 60 + m) /\ 0 <= h * 60 + m <= 1439.
Proof.
  intros (c1 & c2 & c3 & c4 & -> & H1 & H2 & H3 & H4 & -> & -> & Hh & Hm).
  cbn [Str.take Str.drop]. rewrite !int_two_digits by assumption.
  destruct (digit_facts c1 H1) as (_ & _ & _ & _ & ?).
  destruct (digit_facts c2 H2) as (_ & _ & _ & _ & ?).
  destruct (digit_facts c3 H3) as (_ & _ & _ & _ & ?).
  destruct (digit_facts c4 H4) as (_ & _ & _ & _ & ?).
  split; [reflexivity|]. split; [reflexivity|].
  split; [apply make_clock; lia | lia].
Qed.

(** The statements before the loop succeed on clock times in the format
    "HHMM", and on the end ["2400"]. *)
Lemma HHMM_axis_bounds start_time end_time h m :
  HHMM start_time h m ->
  (end_time = "2400"%string \/ exists h' m', HHMM end_time h' m') ->
  exists end_dt,
    axis_bounds start_time end_time = Returned (h * 60 + m, end_dt).
Proof.
  intros Hs He. apply HHMM_parts in Hs as (Hsh & Hsm & Hmk & Hr).
  unfold axis_bounds. rewrite Hsh, Hsm. cbn [or_raise mbind outcome_bind].
  destruct He as [->|(h' & m' & He)].
  - cbn [String.eqb Ascii.eqb Bool.eqb]. cbn [mbind outcome_bind].
    rewrite Hmk, make_end_of_day. cbn [or_raise mbind outcome_bind].
    rewrite orb_true_r, add_days_next by lia. cbn. eauto.
  - apply HHMM_parts in He as (Heh & Hem & Hmk' & Hr').
    rewrite Heh, Hem.
    destruct (String.eqb end_time "2400") eqn:E24; cbn [or_raise mbind outcome_bind].
    + rewrite Hmk, make_end_of_day. cbn [or_raise mbind outcome_bind].
      rewrite orb_true_r, add_days_next by lia. cbn. eauto.
    + rewrite Hmk, Hmk'. cbn [or_raise mbind outcome_bind]. rewrite orb_false_r.
      destruct (Z.leb_spec (h' * 60 + m') (h * 60 + m)).
      * rewrite add_days_next by lia. cbn. eauto.
      * cbn. eauto.
Qed.

(** A run that ended with some amount of fuel ends the same way with any
    larger amount. *)
Lemma generate_ends_with fuel start_time end_time interval_minutes out :
  generate_time_slots fuel start_time end_time interval_minutes = out ->
  out <> OutOfFuel ->
  ends_with start_time end_time interval_minutes out.
Proof.
  intros H Hout. split; [assumption|]. exists fuel. intros fuel' Hf.
  unfold generate_time_slots in *.
  destruct (axis_bounds start_time end_time) as [[a b]| |]; cbn in *; try assumption.
  replace fuel' with (fuel + (fuel' - fuel))%nat by lia.
  apply slots_loop_more_fuel; assumption.
Qed.

Lemma ends_with_unique start_time end_time interval_minutes out1 out2 :
  ends_with start_time end_time interval_minutes out1 ->
  ends_with start_time end_time interval_minutes out2 ->
  out1 = out2.
Proof.
  intros [_ [f1 H1]] [_ [f2 H2]].
  rewrite <- (H1 (f1 + f2)%nat), <- (H2 (f1 + f2)%nat) by lia. reflexivity.
Qed.

(** ** Claims on the time axis *)

(** C1. [generate("0530", "2400", 30)] should end with the slot ["2400"]
    after the 38 slots of one day. The code moves the end instant, taken
    as 23:59, to the next day: the run returns 85 slots, ["2400"] is the
    38th of them and the last one is ["2330"] of the next day. *)
Theorem generate_0530_2400_runs_into_next_day :
  exists slots,
    ends_with "0530" "2400" 30 (Returned slots)
    /\ length slots = 85%nat
    /\ last slots = Some "2330"%string
    /\ slots !! 37%nat = Some "2400"%string
    /\ last slots <> Some "2400"%string /\ length slots <> 38%nat.
Proof.
  eexists. split.
  - apply (generate_ends_with 86); [vm_compute; reflexivity | discriminate].
  - vm_compute. repeat split; discriminate.
Qed.

(** C2, as stated, fails: [generate("2300", "0100", 60)] never returns
    [["2300"; "0000"; "0100"]]. *)
Lemma generate_2300_0100_not_0000 :
  ~ (exists fuel,
       generate_time_slots fuel "2300" "0100" 60
       = Returned ["2300"; "0000"; "0100"]%string).
Proof.
  intros [fuel H].
  apply generate_ends_with in H; [|discriminate].
  assert (H' : ends_with "2300" "0100" 60 (Returned ["2300"; "2400"; "0100"]%string))
    by (apply (generate_ends_with 4); [vm_compute; reflexivity | discriminate]).
  pose proof (ends_with_unique _ _ _ _ _ H H'). discriminate.
Qed.

(** C2, amended. [generate("2300", "0100", 60)] returns exactly
    [["2300"; "2400"; "0100"]]: the midnight slot, reached after the
    start, is emitted as ["2400"]. *)
Theorem generate_2300_0100 :
  ends_with "2300" "0100" 60 (Returned ["2300"; "2400"; "0100"]%string).
Proof. apply (generate_ends_with 4); [vm_compute; reflexivity | discriminate]. Qed.

(** C4. In every returned axis the slot number [k] is the label of the
    instant [start + k * interval]: ["2400"] when that instant falls on
    00:00 and is later than the start, its clock time otherwise. The
    first label is the clock time of the start, so it is ["0000"] when
    the axis starts at 00:00. *)
Theorem midnight_label_rule fuel start_time end_time interval_minutes
    start_dt end_dt slots :
  axis_bounds start_time end_time = Returned (start_dt, end_dt) ->
  generate_time_slots fuel start_time end_time interval_minutes = Returned slots ->
  (forall (k : nat) label, slots !! k = Some label ->
     let t := start_dt + Z.of_nat k * interval_minutes in
     (t mod 1440 = 0 /\ start_dt < t -> label = "2400"%string)
     /\ (~ (t mod 1440 = 0 /\ start_dt < t) -> label = Datetime.strftime_HM t))
  /\ slots !! 0%nat = Some (Datetime.strftime_HM start_dt)
  /\ slots !! 0%nat <> Some "2400"%string
  /\ (start_dt = 0 -> slots !! 0%nat = Some "0000"%string).
Proof.
  intros Hb H. rewrite (generate_time_slots_bounds _ _ _ _ _ _ Hb) in H.
  apply axis_bounds_range in Hb.
  apply slots_loop_returned in H as (n & -> & Hin & Hout). cbn [app].
  assert (Hlabel : forall k : nat, (k < n)%nat ->
            labels_from start_dt interval_minutes start_dt n !! k
            = Some (slot_label start_dt (start_dt + Z.of_nat k * interval_minutes))).
  { intros k Hk. unfold labels_from. rewrite list_lookup_fmap, lookup_seq_lt by lia.
    reflexivity. }
  assert (Hn : (0 < n)%nat) by (destruct n; [cbn in Hout; lia | lia]).
  assert (H0 : labels_from start_dt interval_minutes start_dt n !! 0%nat
               = Some (Datetime.strftime_HM start_dt)).
  { rewrite Hlabel by lia. unfold slot_label. cbn [Z.of_nat].
    rewrite Z.mul_0_l, Z.add_0_r, Z.ltb_irrefl, andb_false_r. reflexivity. }
  split; [|split; [|split]].
  - intros k label Hk. cbv zeta.
    set (t := start_dt + Z.of_nat k * interval_minutes).
    assert (k < n)%nat as Hlt.
    { apply lookup_lt_Some in Hk. unfold labels_from in Hk.
      rewrite length_fmap, length_seq in Hk. exact Hk. }
    rewrite Hlabel in Hk by assumption. injection Hk as <-.
    fold t. unfold slot_label. split.
    + intros [Hm Hl]. apply Z.eqb_eq in Hm. apply Z.ltb_lt in Hl.
      rewrite Hm, Hl. reflexivity.
    + intros Hnot.
      destruct (Z.eqb_spec (t mod 1440) 0), (Z.ltb_spec start_dt t); cbn;
        try reflexivity. exfalso. auto.
  - exact H0.
  - rewrite H0.
    assert (Hm : Datetime.strftime_HM start_dt <> "2400"%string).
    { unfold Datetime.strftime_HM, Datetime.minutes_per_day.
      rewrite Z.mod_small by lia. unfold Str.two_digits. cbn [String.append].
      intros E'. injection E' as E1 E2 _ _.
      assert (start_dt / 60 < 24) by (apply Z.div_lt_upper_bound; lia).
      assert (0 <= start_dt / 60) by (apply Z.div_pos; lia).
      assert (Hc : start_dt / 60 / 10 = 0 \/ start_dt / 60 / 10 = 1
                   \/ start_dt / 60 / 10 = 2).
      { assert (start_dt / 60 / 10 < 3) by (apply Z.div_lt_upper_bound; lia).
        assert (0 <= start_dt / 60 / 10) by (apply Z.div_pos; lia). lia. }
      destruct Hc as [Hc|[Hc|Hc]]; rewrite Hc in E1; try discriminate E1.
      assert (Hd : (start_dt / 60) mod 10 < 4).
      { rewrite Z.mod_eq by lia. lia. }
      pose proof (Z.mod_pos_bound (start_dt / 60) 10 ltac:(lia)) as Hp.
      assert (Hc' : (start_dt / 60) mod 10 = 0 \/ (start_dt / 60) mod 10 = 1
                    \/ (start_dt / 60) mod 10 = 2 \/ (start_dt / 60) mod 10 = 3) by lia.
      destruct Hc' as [Hc'|[Hc'|[Hc'|Hc']]]; rewrite Hc' in E2; discriminate E2. }
    congruence.
  - intros ->. exact H0.
Qed.

Lemma midnight_label_rule_witness :
  axis_bounds "2300" "0100" = Returned (1380, 1500)
  /\ generate_time_slots 4 "2300" "0100" 60 = Returned ["2300"; "2400"; "0100"]%string
  /\ ["2300"; "2400"; "0100"]%string !! 1%nat = Some "2400"%string
  /\ ["2300"; "2400"; "0100"]%string !! 0%nat <> Some "2400"%string.
Proof.
  assert (Hb : axis_bounds "2300" "0100" = Returned (1380, 1500)) by reflexivity.
  assert (Hg : generate_time_slots 4 "2300" "0100" 60
               = Returned ["2300"; "2400"; "0100"]%string) by reflexivity.
  pose proof (midnight_label_rule 4 "2300" "0100" 60 1380 1500 _ Hb Hg) as (_ & _ & H0 & _).
  split; [exact Hb|]. split; [exact Hg|]. split; [reflexivity | exact H0].
Defined.

(** C10, as stated, fails for negative intervals: the run of
    [generate("0000", "0100", -1440)] does not stay in the loop for ever,
    it ends with [OverflowError] when the running instant would fall
    before the first [datetime]. *)
Lemma generate_negative_interval_ends :
  ends_with "0000" "0100" (-1440) (Raised OverflowError)
  /\ ~ diverges "0000" "0100" (-1440).
Proof.
  assert (H : ends_with "0000" "0100" (-1440) (Raised OverflowError)).
  { apply (generate_negative_overflows _ _ _ (0, 60)); [reflexivity | lia]. }
  split; [exact H|]. intros Hd.
  destruct H as [_ [fuel H]]. specialize (H fuel (le_n _)).
  rewrite (Hd fuel) in H. discriminate.
Qed.

(** One step is enough to leave the range from the start of the
    reference day. *)
Example generate_overflow_in_one_step :
  generate_time_slots 2 "0000" "0100" (-1051371361) = Raised OverflowError.
Proof. reflexivity. Qed.

(** C10, amended. Whenever the start and end strings parse (as every
    string in the format "HHMM" does, see [HHMM_axis_bounds]), the generator
    terminates for every interval of at least one minute; the positive
    interval is necessary for a result: with a zero interval the loop is
    never left, and with a negative interval the generator never returns
    a sequence, the loop ending with [OverflowError] once the running
    instant leaves the range of [datetime]. *)
Theorem generate_termination start_time end_time interval_minutes bounds :
  axis_bounds start_time end_time = Returned bounds ->
  (1 <= interval_minutes -> terminates start_time end_time interval_minutes)
  /\ (interval_minutes = 0 -> diverges start_time end_time interval_minutes)
  /\ (interval_minutes < 0 ->
      ends_with start_time end_time interval_minutes (Raised OverflowError))
  /\ (interval_minutes <= 0 -> forall fuel slots,
      generate_time_slots fuel start_time end_time interval_minutes <> Returned slots).
Proof.
  intros Hb. split; [|split; [|split]].
  - apply generate_terminates_positive.
  - intros ->. exact (generate_zero_diverges _ _ _ Hb).
  - exact (generate_negative_overflows _ _ _ _ Hb).
  - intros Hi fuel slots. apply generate_nonpositive_no_return. exact Hi.
Qed.

Lemma generate_termination_witness :
  terminates "0530" "2400" 30
  /\ diverges "0530" "2400" 0
  /\ ends_with "0530" "2400" (-30) (Raised OverflowError).
Proof.
  assert (Hb : axis_bounds "0530" "2400" = Returned (330, 2879)) by reflexivity.
  split; [|split].
  - apply (generate_termination "0530" "2400" 30 _ Hb). lia.
  - apply (generate_termination "0530" "2400" 0 _ Hb). reflexivity.
  - apply (generate_termination "0530" "2400" (-30) _ Hb). lia.
Defined.

(** ** Dictionaries *)

Section DictFacts.
Context {K V : Type} `{EqDecision K}.
Implicit Types (k : K) (d : list (K * V)).

Lemma dict_mem_true k d : Dict.mem k d = true <-> is_Some (Dict.lookup k d).
Proof. unfold Dict.mem. apply bool_decide_eq_true. Qed.

Lemma dict_lookup_update k k' (f : V -> V) d :
  Dict.lookup k' (Dict.update k f d)
  = if decide (k' = k) then f <$> Dict.lookup k' d else Dict.lookup k' d.
Proof.
  induction d as [|[k0 v0] d IH]; cbn.
  - destruct (decide (k' = k)); reflexivity.
  - destruct (decide (k = k0)) as [->|Hne]; cbn.
    + destruct (decide (k' = k0)) as [->|Hne']; reflexivity.
    + destruct (decide (k' = k0)) as [->|Hne'].
      * destruct (decide (k0 = k)); [congruence | reflexivity].
      * exact IH.
Qed.

Lemma dict_mem_update k k' (f : V -> V) d :
  Dict.mem k' (Dict.update k f d) = Dict.mem k' d.
Proof.
  unfold Dict.mem. apply bool_decide_ext. rewrite dict_lookup_update.
  destruct (decide (k' = k)); [|reflexivity]. apply fmap_is_Some.
Qed.

Lemma dict_lookup_set k k' (v : V) d :
  Dict.lookup k' (Dict.set k v d)
  = if decide (k' = k) then Some v else Dict.lookup k' d.
Proof.
  induction d as [|[k0 v0] d IH]; cbn.
  - destruct (decide (k' = k)); reflexivity.
  - destruct (decide (k = k0)) as [->|Hne]; cbn.
    + destruct (decide (k' = k0)); reflexivity.
    + destruct (decide (k' = k0)) as [->|Hne'].
      * destruct (decide (k0 = k)); [congruence | reflexivity].
      * exact IH.
Qed.


(** Assigning to a key leaves the number of entries or adds one. *)
Lemma dict_set_length k (v : V) d :
  length (Dict.set k v d) = if Dict.mem k d then length d else S (length d).
Proof.
  induction d as [|[k0 v0] d IH]; cbn; [reflexivity|].
  unfold Dict.mem in *. cbn.
  destruct (decide (k = k0)) as [->|Hne]; cbn.
  - reflexivity.
  - rewrite IH. destruct (bool_decide (is_Some (Dict.lookup k d))); reflexivity.
Qed.

End DictFacts.

(** ** Claims on the store *)

Lemma set_groups_run gs st :
  set_groups gs st
  = (Returned (), {| time_slots := time_slots st; groups := gs;
                     schedule_data := schedule_data st |}).
Proof. reflexivity. Qed.

Lemma add_group_registered st group_name acts locs :
  registered group_name st ->
  add_group group_name acts locs st = (Returned (), st).
Proof.
  unfold registered, add_group. intros H.
  destruct (parse_hierarchy group_name) as [hier leaf].
  unfold mbind, M_bind, get. rewrite H. reflexivity.
Qed.

Lemma add_group_registers st group_name acts locs :
  registered group_name (exec (add_group group_name acts locs) st).
Proof.
  unfold registered, exec, add_group.
  destruct (parse_hierarchy group_name) as [hier leaf].
  unfold mbind, M_bind, get.
  destruct (Dict.mem group_name (groups st)) eqn:E;
    cbn -[Dict.set Dict.mem Dict.lookup]; [exact E|].
  rewrite set_groups_run. cbn [snd groups].
  apply dict_mem_true. rewrite dict_lookup_set.
  destruct (decide (group_name = group_name)); [eauto | congruence].
Qed.

(** The state after [add_activity], by the presence of the group and the
    choice made for the location. *)
Lemma add_activity_exec st group_name time_slot activity location :
  let st1 := exec (if negb (Dict.mem group_name (groups st))
                   then add_group group_name None None else mret ()) st in
  let gs2 := Dict.update group_name (set_activity time_slot activity) (groups st1) in
  let st2 := {| time_slots := time_slots st1; groups := gs2;
                schedule_data := schedule_data st1 |} in
  add_activity group_name time_slot activity location st =
  (Returned (),
   if negb (String.eqb location "")
      && negb (bool_decide (location ∈ group_locations group_name st2))
   then {| time_slots := time_slots st1;
           groups := Dict.update group_name (append_location location) gs2;
           schedule_data := schedule_data st1 |}
   else st2).
Proof.
  cbv zeta. unfold add_activity, exec.
  unfold mbind at 1. unfold M_bind at 1. unfold get at 1.
  unfold mbind at 1. unfold M_bind at 1.
  assert (Hr : forall m : M (), m = (if negb (Dict.mem group_name (groups st))
                 then add_group group_name None None else mret ()) ->
               (m st).1 = Returned ()).
  { intros m ->. destruct (Dict.mem group_name (groups st)) eqn:E; cbn; [reflexivity|].
    unfold add_group. destruct (parse_hierarchy group_name).
    unfold mbind, M_bind, get. rewrite E. reflexivity. }
  specialize (Hr _ eq_refl).
  destruct ((if negb (Dict.mem group_name (groups st))
             then add_group group_name None None else mret ()) st) as [o st1] eqn:E1.
  cbn in Hr. subst o. cbn -[Dict.update String.eqb group_locations].
  unfold set_groups. unfold mbind, M_bind, get, put, mret, M_ret.
  cbn -[Dict.update String.eqb group_locations].
  match goal with
  | |- context [negb ?a && negb ?b] => destruct (negb a && negb b)
  end; reflexivity.
Qed.

Lemma add_activity_registered_exec st group_name time_slot activity location :
  registered group_name st ->
  let gs2 := Dict.update group_name (set_activity time_slot activity) (groups st) in
  groups (exec (add_activity group_name time_slot activity location) st)
  = gs2 \/
  groups (exec (add_activity group_name time_slot activity location) st)
  = Dict.update group_name (append_location location) gs2.
Proof.
  intros Hreg. cbv zeta. unfold exec. rewrite add_activity_exec.
  unfold registered in Hreg. rewrite Hreg. cbn [negb snd exec mret M_ret].
  match goal with
  | |- context [negb ?a && negb ?b] => destruct (negb a && negb b)
  end; cbn [groups]; auto.
Qed.

(** C8. For a name that is registered, [add_group] returns without
    changing the store, whatever activities and locations it is given; in
    particular an activity added after the first [add_group] is still
    there after the second. *)
Theorem add_group_again_is_noop st group_name acts locs :
  registered group_name st ->
  add_group group_name acts locs st = (Returned (), st)
  /\ forall time_slot activity location acts' locs',
       let st2 := exec (add_activity group_name time_slot activity location) st in
       exec (add_group group_name acts' locs') st2 = st2
       /\ activity_at group_name time_slot
            (exec (add_group group_name acts' locs') st2) = Some activity.
Proof.
  intros Hreg. split; [apply add_group_registered; exact Hreg|].
  intros time_slot activity location acts' locs'. cbv zeta.
  set (st2 := exec (add_activity group_name time_slot activity location) st).
  assert (Hg : exists g, Dict.lookup group_name (groups st) = Some g).
  { apply dict_mem_true in Hreg. destruct Hreg as [g Hg]. eauto. }
  destruct Hg as [g Hg].
  assert (H2 : exists g2, Dict.lookup group_name (groups st2) = Some g2
                          /\ activities g2 !! time_slot = Some activity).
  { destruct (add_activity_registered_exec st group_name time_slot activity location Hreg)
      as [E|E]; fold st2 in E; rewrite E; rewrite !dict_lookup_update;
      destruct (decide (group_name = group_name)); try congruence; rewrite Hg; cbn.
    - eexists. split; [reflexivity|]. cbn. apply lookup_insert_eq.
    - eexists. split; [reflexivity|]. cbn. apply lookup_insert_eq. }
  destruct H2 as (g2 & Hl2 & Ha2).
  assert (Hreg2 : registered group_name st2).
  { apply dict_mem_true. rewrite Hl2. eauto. }
  unfold exec at 1 2. rewrite (add_group_registered _ _ acts' locs' Hreg2). cbn [snd].
  split; [reflexivity|].
  unfold activity_at. rewrite Hl2. cbn. exact Ha2.
Qed.

Lemma add_group_again_is_noop_witness :
  let st := exec (add_group "Players - Planners - Leads" None None) init in
  let st2 := exec (add_activity "Players - Planners - Leads" "0700" "CUB" "Tent A") st in
  registered "Players - Planners - Leads" st
  /\ exec (add_group "Players - Planners - Leads" None (Some ["Tent B"]%string)) st2 = st2
  /\ activity_at "Players - Planners - Leads" "0700"
       (exec (add_group "Players - Planners - Leads" None (Some ["Tent B"]%string)) st2)
     = Some "CUB"%string.
Proof.
  cbv zeta.
  assert (Hreg : registered "Players - Planners - Leads"
                   (exec (add_group "Players - Planners - Leads" None None) init))
    by (vm_compute; reflexivity).
  split; [exact Hreg|].
  exact (proj2 (add_group_again_is_noop _ "Players - Planners - Leads" None None Hreg)
           "0700"%string "CUB"%string "Tent A"%string None (Some ["Tent B"]%string)).
Defined.

(** ** Claims on the table *)

Lemma build_run st :
  build_schedule_structure st =
  (match time_slots st with
   | [] => Raised ValueError
   | _ =>
       Returned
         ([[EmptyString; EmptyString; EmptyString] ++ time_slots st;
           [EmptyString; EmptyString; EmptyString]
             ++ replicate (length (time_slots st)) EmptyString]
            ++ render_rows (time_slots st) (None, None) (sorted_groups st))
   end, st).
Proof.
  unfold build_schedule_structure, mbind, M_bind, get, raise, mret, M_ret, sorted_groups.
  destruct (time_slots st); reflexivity.
Qed.

(** C6. Building raises exactly when the sequence of time slots is empty;
    the error is the [ValueError] of the precondition, the store and the
    time axis are the same after it, and with a time axis the build
    returns a table. *)
Theorem build_raises_iff_no_time_axis st :
  ((exists e, result build_schedule_structure st = Raised e) <-> time_slots st = [])
  /\ (forall e, result build_schedule_structure st = Raised e ->
        e = ValueError /\ exec build_schedule_structure st = st)
  /\ (time_slots st <> [] ->
        exists table, result build_schedule_structure st = Returned table)
  /\ result build_schedule_structure st <> OutOfFuel.
Proof.
  unfold result, exec. rewrite build_run. cbn [fst snd].
  destruct (time_slots st) as [|slot slots] eqn:E.
  - split; [|split; [|split]].
    + split; [reflexivity | eauto].
    + intros e [= <-]. split; reflexivity.
    + congruence.
    + discriminate.
  - split; [|split; [|split]].
    + split; [intros [e H]; discriminate | discriminate].
    + intros e H. discriminate.
    + intros _. eexists. reflexivity.
    + discriminate.
Qed.

(** C9. Building leaves the time slots and the groups as they were, and
    a second build from the state left by the first returns the same
    table. *)
Theorem build_is_pure_read st :
  exec build_schedule_structure st = st
  /\ time_slots (exec build_schedule_structure st) = time_slots st
  /\ groups (exec build_schedule_structure st) = groups st
  /\ result build_schedule_structure (exec build_schedule_structure st)
     = result build_schedule_structure st
  /\ forall t1 t2,
       result (t1 ← build_schedule_structure; t2 ← build_schedule_structure;
               mret (t1, t2)) st = Returned (t1, t2) -> t1 = t2.
Proof.
  assert (E : exec build_schedule_structure st = st)
    by (unfold exec; rewrite build_run; reflexivity).
  rewrite !E. repeat split.
  intros t1 t2. unfold result, mbind, M_bind. rewrite build_run.
  destruct (time_slots st) eqn:Ets; [discriminate|].
  rewrite build_run, Ets. cbn. intros [= <- <-]. reflexivity.
Qed.

(** ** The order of the rows *)

Lemma key_compare_antisym a : forall b,
  key_compare a b = CompOpp (key_compare b a).
Proof.
  induction a as [|x a IH]; intros [|y b]; cbn; try reflexivity.
  rewrite (String.compare_antisym y x).
  destruct (String.compare x y); cbn; [apply IH | reflexivity | reflexivity].
Qed.

#[global] Instance key_le_total : Total key_le.
Proof.
  intros x y. unfold key_le. rewrite (key_compare_antisym y.1 x.1).
  destruct (key_compare x.1 y.1); cbn; [left | left | right]; discriminate.
Qed.

(** The rows follow the groups of [hierarchy_groups] in the order of
    their keys. *)
Lemma sorted_groups_sorted st :
  Sorted key_le (sorted_groups st)
  /\ sorted_groups st ≡ₚ group_by_key [] (groups st).
Proof.
  unfold sorted_groups, sorted_items. split.
  - apply Sorted_merge_sort. apply _.
  - apply merge_sort_Permutation.
Qed.

(** ** The rendering loop *)

Lemma render_rows_app slots cur items1 items2 :
  render_rows slots cur (items1 ++ items2)
  = render_rows slots cur items1
    ++ render_rows slots (tracker_after slots cur items1) items2.
Proof.
  revert cur. induction items1 as [|item items1 IH]; intros cur; [reflexivity|].
  cbn [app render_rows tracker_after foldl].
  destruct (render_row slots cur item) as [row cur'] eqn:E. cbn [snd].
  rewrite IH. reflexivity.
Qed.

Lemma render_rows_length slots cur items :
  length (render_rows slots cur items) = length items.
Proof.
  revert cur. induction items as [|item items IH]; intros cur; [reflexivity|].
  cbn [render_rows]. destruct (render_row slots cur item). cbn. rewrite IH. reflexivity.
Qed.

(** The data row of the item that follows [pre] in the sorted items. *)
Lemma table_data_row st table pre item post :
  result build_schedule_structure st = Returned table ->
  sorted_groups st = pre ++ item :: post ->
  table !! (2 + length pre)%nat
  = Some (render_row (time_slots st)
            (tracker_after (time_slots st) (None, None) pre) item).1.
Proof.
  unfold result. rewrite build_run. cbn [fst]. intros H Hs.
  destruct (time_slots st) as [|slot slots] eqn:Ets; [discriminate|].
  injection H as <-. rewrite Hs, render_rows_app.
  change (2 + length pre)%nat with (S (S (length pre))).
  cbn [app]. rewrite !lookup_cons_ne_0 by lia. cbn [Nat.pred].
  rewrite lookup_app_r by (rewrite render_rows_length; lia).
  rewrite render_rows_length, Nat.sub_diag.
  cbn [render_rows]. destruct (render_row _ _ item). reflexivity.
Qed.

Lemma tracker_after_snoc slots cur items item :
  tracker_after slots cur (items ++ [item])
  = (render_row slots (tracker_after slots cur items) item).2.
Proof. unfold tracker_after. rewrite foldl_app. reflexivity. Qed.

Lemma span_same label : span label (Some label) = EmptyString.
Proof. unfold span. destruct (decide (Some label = Some label)); congruence. Qed.

Lemma span_other label current : Some label <> current -> span label current = label.
Proof. unfold span. intros H. destruct (decide (Some label = current)); congruence. Qed.

(** C7, as stated, fails for a following group of depth four: after
    ["A - B - C"] and ["A - B - D"], the row of ["B - X - Y - Z"] has an
    empty first cell although its top-level label differs. *)
Lemma deep_group_hides_top_label :
  let st := exec (add_group "A - B - C" None None;;
                  add_group "A - B - D" None None;;
                  add_group "B - X - Y - Z" None None;;
                  set_time_period 4 "0530" "0630" 30) init in
  Dict.keys (sorted_groups st)
  = [["A"; "B"; "C"]; ["A"; "B"; "D"]; ["B"; "X"; "Y"; "Z"]]%string
  /\ exists table row,
       result build_schedule_structure st = Returned table
       /\ table !! 4%nat = Some row
       /\ row = [""; ""; "Z"; ""; ""; ""]%string
       /\ row !! 0%nat <> Some "B"%string.
Proof.
  cbv zeta. split; [vm_compute; reflexivity|].
  eexists. eexists. split; [vm_compute; reflexivity|].
  split; [reflexivity|]. split; [reflexivity|]. discriminate.
Qed.

(** C7, amended. When two depth-3 groups that share their top-level and
    second-level labels are adjacent in sort order, the row of the second
    has empty strings in columns 0 and 1; and when the group sorted right
    after them has depth at most 3 and a different top-level label, its
    row shows that label in column 0. The row of a group of depth greater
    than 3 always has empty strings in columns 0 and 1. *)
Theorem span_collapsing st table :
  result build_schedule_structure st = Returned table ->
  (forall pre k1 g1 k2 g2 post,
     sorted_groups st = pre ++ (k1, g1) :: (k2, g2) :: post ->
     length k1 = 3%nat -> length k2 = 3%nat ->
     top_label k1 = top_label k2 -> second_label k1 = second_label k2 ->
     (exists row, table !! (2 + length pre + 1)%nat = Some row
                  /\ row !! 0%nat = Some EmptyString /\ row !! 1%nat = Some EmptyString)
     /\ (forall k3 g3 post', post = (k3, g3) :: post' ->
           (length k3 <= 3)%nat -> top_label k3 <> top_label k2 ->
           exists row3, table !! (2 + length pre + 2)%nat = Some row3
                        /\ row3 !! 0%nat = Some (top_label k3)))
  /\ (forall (i : nat) k g,
        sorted_groups st !! i = Some (k, g) -> (3 < length k)%nat ->
        exists row, table !! (2 + i)%nat = Some row
                    /\ row !! 0%nat = Some EmptyString
                    /\ row !! 1%nat = Some EmptyString).
Proof.
  intros Ht. split.
  - intros pre k1 g1 k2 g2 post Hs Hl1 Hl2 Htop Hsecond.
    destruct k1 as [|a1 [|b1 [|c1 [|? ?]]]]; try discriminate Hl1.
    destruct k2 as [|a2 [|b2 [|c2 [|? ?]]]]; try discriminate Hl2.
    cbn in Htop, Hsecond. subst a2 b2.
    set (slots := time_slots st) in *.
    assert (Hcur1 : tracker_after slots (None, None) (pre ++ [([a1; b1; c1], g1)])
                    = (Some a1, Some b1)).
    { rewrite tracker_after_snoc. reflexivity. }
    assert (Hcur2 : tracker_after slots (None, None)
                      ((pre ++ [([a1; b1; c1], g1)]) ++ [([a1; b1; c2], g2)])
                    = (Some a1, Some b1)).
    { rewrite tracker_after_snoc, Hcur1. reflexivity. }
    split.
    + exists (render_row slots (Some a1, Some b1) ([a1; b1; c2], g2)).1. split.
      * pose proof (table_data_row st table (pre ++ [([a1; b1; c1], g1)])
                      ([a1; b1; c2], g2) post Ht) as H.
        rewrite <- app_assoc in H. specialize (H Hs).
        rewrite length_app in H. cbn [length] in H.
        replace (2 + length pre + 1)%nat with (2 + (length pre + 1))%nat by lia.
        rewrite H. fold slots. rewrite Hcur1. reflexivity.
      * cbn. rewrite !span_same. split; reflexivity.
    + intros k3 g3 post' -> Hl3 Hne.
      exists (render_row slots (Some a1, Some b1) (k3, g3)).1. split.
      * pose proof (table_data_row st table
                      ((pre ++ [([a1; b1; c1], g1)]) ++ [([a1; b1; c2], g2)])
                      (k3, g3) post' Ht) as H.
        rewrite <- !app_assoc in H. specialize (H Hs).
        rewrite !length_app in H. cbn [length] in H.
        replace (2 + length pre + 2)%nat with (2 + (length pre + (1 + 1)))%nat by lia.
        rewrite H. fold slots. rewrite app_assoc, Hcur2. reflexivity.
      * cbn in Hne.
        destruct k3 as [|a3 [|b3 [|c3 [|? ?]]]]; cbn in Hl3; try lia; cbn in *;
          try reflexivity; rewrite span_other by congruence; reflexivity.
  - intros i k g Hi Hdeep.
    pose proof (take_drop_middle _ _ _ Hi) as Hs. symmetry in Hs.
    pose proof (table_data_row st table _ _ _ Ht Hs) as Hrow.
    rewrite length_take_le in Hrow by (apply lookup_lt_Some in Hi; lia).
    eexists. split; [exact Hrow|].
    destruct k as [|a [|b [|c [|d k]]]]; cbn in Hdeep; try lia.
    split; reflexivity.
Qed.

Lemma span_collapsing_witness :
  let st := exec (add_activity "Players - Echelon 2 & 3 - CPF" "0630" "SAP CUB" "";;
                  add_activity "Players - Echelon 2 & 3 - Commanders" "0600" "Lunch" "";;
                  add_activity "Staff - Planners - Leads" "0530" "CUB" "";;
                  add_activity "Staff - Watch - Night - Desk" "0600" "Shift" "";;
                  set_time_period 4 "0530" "0630" 30) init in
  exists table row row3 row4,
    result build_schedule_structure st = Returned table
    /\ table !! 3%nat = Some row
    /\ row !! 0%nat = Some EmptyString /\ row !! 1%nat = Some EmptyString
    /\ table !! 4%nat = Some row3 /\ row3 !! 0%nat = Some "Staff"%string
    /\ table !! 5%nat = Some row4
    /\ row4 !! 0%nat = Some EmptyString /\ row4 !! 1%nat = Some EmptyString.
Proof.
  cbv zeta.
  set (st := exec _ init).
  assert (Hs : exists g1 g2 g3 g4, sorted_groups st
            = [] ++ (["Players"; "Echelon 2 & 3"; "CPF"]%string, g1)
                 :: (["Players"; "Echelon 2 & 3"; "Commanders"]%string, g2)
                 :: [(["Staff"; "Planners"; "Leads"]%string, g3);
                     (["Staff"; "Watch"; "Night"; "Desk"]%string, g4)])
    by (do 4 eexists; vm_compute; reflexivity).
  destruct Hs as (g1 & g2 & g3 & g4 & Hs).
  assert (Ht : exists table, result build_schedule_structure st = Returned table)
    by (eexists; vm_compute; reflexivity).
  destruct Ht as [table Ht].
  destruct (span_collapsing st table Ht) as [Hpair Hdeep].
  destruct (Hpair [] _ g1 _ g2 _ Hs eq_refl eq_refl eq_refl eq_refl)
    as [(row & Hr & H0 & H1) H3].
  destruct (H3 _ g3 _ eq_refl ltac:(cbn; lia) ltac:(discriminate))
    as (row3 & Hr3 & H30).
  destruct (Hdeep 3%nat _ g4 ltac:(rewrite Hs; reflexivity) ltac:(cbn; lia))
    as (row4 & Hr4 & H40 & H41).
  exists table, row, row3, row4. repeat split; assumption.
Defined.

(** ** Rows and groups *)

Lemma group_by_key_length gs : forall acc,
  (length (group_by_key acc gs) <= length acc + length gs)%nat.
Proof.
  unfold group_by_key.
  induction gs as [|[name data] gs IH]; intros acc; cbn [foldl length]; [lia|].
  etransitivity; [apply IH|]. rewrite dict_set_length.
  destruct (Dict.mem _ acc); lia.
Qed.

(** The table has one data row for each key of [hierarchy_groups], which
    are at most as many as the groups. *)
Lemma data_rows_count st table :
  result build_schedule_structure st = Returned table ->
  length table = (2 + length (group_by_key [] (groups st)))%nat
  /\ (length table <= 2 + length (groups st))%nat.
Proof.
  unfold result. rewrite build_run. cbn [fst]. intros H.
  destruct (time_slots st); [discriminate|]. injection H as <-.
  cbn [app length]. rewrite render_rows_length.
  unfold sorted_groups, sorted_items.
  rewrite (Permutation_length (merge_sort_Permutation key_le _)).
  split; [reflexivity|].
  pose proof (group_by_key_length (groups st) []). cbn [length] in *. lia.
Qed.

(** C3. Two distinct names can have the same sort key, since the parts of
    a name are stripped: ["Players - Planners - Leads"] and the same name
    with two spaces after the last dash. The second group then replaces
    the first in [hierarchy_groups], and the table built from a store of
    two groups has a single data row, the one of the second group. *)
Theorem colliding_keys_lose_a_row :
  let name1 := "Players - Planners - Leads"%string in
  let name2 := "Players - Planners -  Leads"%string in
  let st := exec (add_activity name1 "0600" "CUB" "";;
                  add_activity name2 "0630" "Brief" "";;
                  set_time_period 4 "0530" "0630" 30) init in
  name1 <> name2
  /\ Dict.keys (groups st) = [name1; name2]
  /\ (forall g1 g2, Dict.lookup name1 (groups st) = Some g1 ->
                    Dict.lookup name2 (groups st) = Some g2 ->
                    hierarchy_key name1 g1 = hierarchy_key name2 g2)
  /\ result build_schedule_structure st
     = Returned [[""; ""; ""; "0530"; "0600"; "0630"];
                 [""; ""; ""; ""; ""; ""];
                 ["Players"; "Planners"; "Leads"; ""; ""; "Brief"]]%string.
Proof.
  cbv zeta. split; [discriminate|]. split; [vm_compute; reflexivity|]. split.
  - intros g1 g2 H1 H2. vm_compute in H1, H2.
    injection H1 as <-. injection H2 as <-. reflexivity.
  - vm_compute. reflexivity.
Qed.

(** ** Locations *)

Lemma group_locations_update_activity st name group_name time_slot activity :
  from_option locations []
    (Dict.lookup name
       (Dict.update group_name (set_activity time_slot activity) (groups st)))
  = group_locations name st.
Proof.
  unfold group_locations. rewrite dict_lookup_update.
  destruct (decide (name = group_name)); [|reflexivity].
  destruct (Dict.lookup name (groups st)); reflexivity.
Qed.

(** [add_activity] keeps the locations of every group free of
    duplicates. *)
Lemma add_activity_locations_NoDup st group_name time_slot activity location :
  (forall name, NoDup (group_locations name st)) ->
  forall name,
    NoDup (group_locations name
             (exec (add_activity group_name time_slot activity location) st)).
Proof.
  intros Hnd name. unfold exec. rewrite add_activity_exec. cbn [snd].
  set (st1 := exec _ st).
  assert (H1 : forall n, NoDup (group_locations n st1)).
  { intros n. unfold st1, exec.
    destruct (Dict.mem group_name (groups st)) eqn:E; cbn [negb]; [apply Hnd|].
    unfold add_group. destruct (parse_hierarchy group_name) as [hier leaf].
    unfold mbind, M_bind, get. rewrite E. cbn [negb]. rewrite set_groups_run.
    unfold group_locations. cbn [snd groups]. rewrite dict_lookup_set.
    destruct (decide (n = group_name)); [constructor | apply Hnd]. }
  set (st2 := {| time_slots := time_slots st1;
                 groups := Dict.update group_name (set_activity time_slot activity)
                             (groups st1);
                 schedule_data := schedule_data st1 |}).
  assert (H2 : forall n, group_locations n st2 = group_locations n st1).
  { intros n. apply group_locations_update_activity. }
  destruct (negb (String.eqb location "")) eqn:El; cbn [andb];
    [|rewrite H2; apply H1].
  destruct (bool_decide (location ∈ group_locations group_name st2)) eqn:Ein;
    cbn [negb]; [rewrite H2; apply H1|].
  apply bool_decide_eq_false in Ein.
  unfold group_locations at 1. cbn [groups]. rewrite dict_lookup_update.
  change (Dict.update group_name (set_activity time_slot activity) (groups st1))
    with (groups st2).
  destruct (decide (name = group_name)) as [->|Hne].
  - unfold group_locations in Ein.
    destruct (Dict.lookup group_name (groups st2)) as [g|] eqn:Eg; cbn; [|constructor].
    cbn in Ein. apply NoDup_app. split; [|split].
    + specialize (H1 group_name). rewrite <- H2 in H1.
      unfold group_locations in H1. rewrite Eg in H1. exact H1.
    + intros x Hx Hx'. apply list_elem_of_singleton in Hx'. subst x. contradiction.
    + apply NoDup_singleton.
  - fold (group_locations name st2). rewrite H2. apply H1.
Qed.

(** C5. [add_group] stores the list of locations it is given as it is: a
    list with a repeated entry stays in the store with the repetition
    and is rendered with it, while [add_activity] appends a location only
    when it is not there yet. *)
Theorem add_group_keeps_duplicate_locations :
  let st := exec (add_group "Leads" None (Some ["Tent A"; "Tent A"]%string);;
                  set_time_period 4 "0530" "0630" 30) init in
  let st' := exec (add_activity "Leads" "0530" "CUB" "Tent A";;
                   add_activity "Leads" "0600" "Brief" "Tent A";;
                   set_time_period 4 "0530" "0630" 30) init in
  group_locations "Leads" st = ["Tent A"; "Tent A"]%string
  /\ ~ NoDup (group_locations "Leads" st)
  /\ result build_schedule_structure st
     = Returned [[""; ""; ""; "0530"; "0600"; "0630"];
                 [""; ""; ""; ""; ""; ""];
                 ["Leads"; ""; "(Tent A, Tent A)"; ""; ""; ""]]%string
  /\ group_locations "Leads" st' = ["Tent A"]%string.
Proof.
  cbv zeta. split; [vm_compute; reflexivity|]. split; [|split].
  - assert (E : group_locations "Leads"
                  (exec (add_group "Leads" None (Some ["Tent A"; "Tent A"]%string);;
                         set_time_period 4 "0530" "0630" 30) init)
                = ["Tent A"; "Tent A"]%string) by (vm_compute; reflexivity).
    rewrite E. intros H. apply NoDup_cons in H as [Hin _].
    apply Hin. constructor.
  - vm_compute. reflexivity.
  - vm_compute. reflexivity.
Qed.

(** * Further properties *)

(** ** The time axis *)

Lemma digit_char_value c :
  Str.is_digit c = true -> Str.digit_char (Str.digit_value c) = c.
Proof.
  destruct c as [[] [] [] [] [] [] [] []]; intros H; try discriminate H; reflexivity.
Qed.

Lemma digit_value_char d :
  0 <= d < 10 ->
  Str.is_digit (Str.digit_char d) = true /\ Str.digit_value (Str.digit_char d) = d.
Proof.
  intros Hd.
  assert (Hc : d = 0 \/ d = 1 \/ d = 2 \/ d = 3 \/ d = 4 \/ d = 5 \/ d = 6
               \/ d = 7 \/ d = 8 \/ d = 9) by lia.
  destruct Hc as [->|[->|[->|[->|[->|[->|[->|[->|[->| ->]]]]]]]]]; split; reflexivity.
Qed.

Lemma two_digits_split n :
  0 <= n < 100 -> 0 <= n / 10 < 10 /\ 0 <= n mod 10 < 10 /\ 10 * (n / 10) + n mod 10 = n.
Proof.
  intros Hn. split; [|split].
  - split; [apply Z.div_pos; lia | apply Z.div_lt_upper_bound; lia].
  - apply Z.mod_pos_bound. lia.
  - symmetry. apply Z.div_mod. lia.
Qed.

Lemma clock_split (d : Datetime.t) :
  let clock := d mod 1440 in
  0 <= clock / 60 <= 23 /\ 0 <= clock mod 60 <= 59.
Proof.
  cbv zeta. pose proof (Z.mod_pos_bound d 1440 ltac:(lia)) as Hb.
  pose proof (Z.mod_pos_bound (d mod 1440) 60 ltac:(lia)).
  assert (d mod 1440 / 60 < 24) by (apply Z.div_lt_upper_bound; lia).
  assert (0 <= d mod 1440 / 60) by (apply Z.div_pos; lia). lia.
Qed.

(** The label of an instant is a clock time in the format "HHMM". *)
Lemma strftime_HHMM (d : Datetime.t) :
  HHMM (Datetime.strftime_HM d) (d mod 1440 / 60) ((d mod 1440) mod 60).
Proof.
  destruct (clock_split d) as [Hh Hm]. cbv zeta in Hh, Hm.
  set (h := d mod 1440 / 60) in *. set (m := (d mod 1440) mod 60) in *.
  destruct (two_digits_split h ltac:(lia)) as (Hh1 & Hh2 & Hh3).
  destruct (two_digits_split m ltac:(lia)) as (Hm1 & Hm2 & Hm3).
  destruct (digit_value_char _ Hh1) as [D1 V1], (digit_value_char _ Hh2) as [D2 V2],
    (digit_value_char _ Hm1) as [D3 V3], (digit_value_char _ Hm2) as [D4 V4].
  exists (Str.digit_char (h / 10)), (Str.digit_char (h mod 10)),
    (Str.digit_char (m / 10)), (Str.digit_char (m mod 10)).
  split; [reflexivity|]. rewrite V1, V2, V3, V4. repeat split; auto; lia.
Qed.

(** Printing the clock time read from a string in the format "HHMM"
    gives the string back. *)
Lemma HHMM_strftime s h m :
  HHMM s h m -> Datetime.strftime_HM (h * 60 + m) = s.
Proof.
  intros (c1 & c2 & c3 & c4 & -> & H1 & H2 & H3 & H4 & Eh & Em & Hh & Hm).
  destruct (digit_facts c1 H1) as (_ & _ & _ & _ & ?).
  destruct (digit_facts c2 H2) as (_ & _ & _ & _ & ?).
  destruct (digit_facts c3 H3) as (_ & _ & _ & _ & ?).
  destruct (digit_facts c4 H4) as (_ & _ & _ & _ & ?).
  unfold Datetime.strftime_HM, Datetime.minutes_per_day.
  rewrite Z.mod_small by lia.
  assert (Eq1 : (h * 60 + m) / 60 = h) by (symmetry; apply (Z.div_unique _ _ _ m); lia).
  assert (Eq2 : (h * 60 + m) mod 60 = m) by (symmetry; apply (Z.mod_unique _ _ h); lia).
  rewrite Eq1, Eq2. unfold Str.two_digits.
  assert (h / 10 = Str.digit_value c1)
    by (symmetry; apply (Z.div_unique _ _ _ (Str.digit_value c2)); lia).
  assert (h mod 10 = Str.digit_value c2)
    by (symmetry; apply (Z.mod_unique _ _ (Str.digit_value c1)); lia).
  assert (m / 10 = Str.digit_value c3)
    by (symmetry; apply (Z.div_unique _ _ _ (Str.digit_value c4)); lia).
  assert (m mod 10 = Str.digit_value c4)
    by (symmetry; apply (Z.mod_unique _ _ (Str.digit_value c3)); lia).
  repeat match goal with E : _ = Str.digit_value _ |- _ => rewrite E; clear E end.
  rewrite !digit_char_value by assumption. reflexivity.
Qed.

(** What the statements before the loop have read when they succeed. *)
Lemma axis_bounds_inv start_time end_time start_dt end_dt :
  axis_bounds start_time end_time = Returned (start_dt, end_dt) ->
  exists h m,
    Str.int (Str.take 2 start_time) = Some h
    /\ Str.int (Str.drop 2 start_time) = Some m
    /\ Datetime.make h m = Returned start_dt
    /\ (end_time = "2400"%string
        \/ exists h' m' e,
             Str.int (Str.take 2 end_time) = Some h'
             /\ Str.int (Str.drop 2 end_time) = Some m'
             /\ Datetime.make h' m' = Returned e
             /\ end_dt = if e <=? start_dt then e + 1440 else e).
Proof.
  unfold axis_bounds. intros H.
  destruct (Str.int (Str.take 2 start_time)) as [sh|] eqn:Esh;
    cbn [or_raise mbind outcome_bind] in H; [|discriminate].
  destruct (Str.int (Str.drop 2 start_time)) as [sm|] eqn:Esm;
    cbn [or_raise mbind outcome_bind] in H; [|discriminate].
  exists sh, sm. split; [reflexivity|]. split; [reflexivity|].
  destruct (String.eqb_spec end_time "2400") as [E24|E24].
  - cbn [mbind outcome_bind] in H.
    destruct (Datetime.make sh sm) as [a|err|] eqn:Ea;
      cbn [or_raise mbind outcome_bind] in H; try discriminate.
    rewrite make_end_of_day in H. cbn [or_raise mbind outcome_bind] in H.
    rewrite orb_true_r in H.
    destruct (Datetime.add_days 1439 1); cbn [or_raise mbind outcome_bind] in H;
      [|discriminate].
    injection H as <- <-. auto.
  - destruct (Str.int (Str.take 2 end_time)) as [eh|] eqn:Eeh;
      cbn [or_raise mbind outcome_bind] in H; [|discriminate].
    destruct (Str.int (Str.drop 2 end_time)) as [em|] eqn:Eem;
      cbn [or_raise mbind outcome_bind] in H; [|discriminate].
    destruct (Datetime.make sh sm) as [a|err|] eqn:Ea;
      cbn [or_raise mbind outcome_bind] in H; try discriminate.
    destruct (Datetime.make eh em) as [b|err|] eqn:Eb;
      cbn [or_raise mbind outcome_bind] in H; try discriminate.
    rewrite orb_false_r in H.
    pose proof (make_Some _ _ _ Eb) as (Hb & ? & ?).
    destruct (Z.leb_spec b a).
    + rewrite add_days_next in H by lia. cbn [or_raise mbind outcome_bind] in H.
      injection H as <- <-. split; [reflexivity|]. right.
      exists eh, em, b. repeat split; try assumption.
      destruct (Z.leb_spec b a); [reflexivity | lia].
    + cbn [or_raise mbind outcome_bind] in H. injection H as <- <-.
      split; [reflexivity|]. right.
      exists eh, em, b. repeat split; try assumption.
      destruct (Z.leb_spec b a); [lia | reflexivity].
Qed.

Lemma four_digits_parts s h m :
  four_digits s h m ->
  Str.int (Str.take 2 s) = Some h /\ Str.int (Str.drop 2 s) = Some m.
Proof.
  intros (c1 & c2 & c3 & c4 & -> & H1 & H2 & H3 & H4 & -> & ->).
  cbn [Str.take Str.drop]. rewrite !int_two_digits by assumption. auto.
Qed.

Lemma HHMM_four_digits s h m : HHMM s h m -> four_digits s h m.
Proof.
  intros (c1 & c2 & c3 & c4 & H). exists c1, c2, c3, c4. tauto.
Qed.

Lemma HHMM_not_2400 s h m : HHMM s h m -> s <> "2400"%string.
Proof.
  intros (c1 & c2 & c3 & c4 & E & _ & _ & _ & _ & -> & _ & Hh & _) ->.
  injection E as <- <- _ _. vm_compute in Hh. auto.
Qed.

(** The passes of the loop from [current] on, when the interval is
    positive: [n] labels are emitted, then the next instant is past
    [end_dt] and the loop is left, unless that instant cannot be held by a
    [datetime]. *)
Lemma slots_loop_run (start_dt end_dt interval_minutes : Z) (n : nat) :
  forall extra current slots,
    1 <= interval_minutes -> Datetime.min <= current -> end_dt <= Datetime.max ->
    (n = 0%nat \/ current + (Z.of_nat n - 1) * interval_minutes <= end_dt) ->
    end_dt < current + Z.of_nat n * interval_minutes ->
    slots_loop (S n + extra) start_dt end_dt interval_minutes current slots
    = if (0 <? Z.of_nat n) && (Datetime.max <? current + Z.of_nat n * interval_minutes)
      then Raised OverflowError
      else Returned (slots ++ labels_from start_dt interval_minutes current n).
Proof.
  induction n as [|n IH]; intros extra current slots Hi Hmin Hmax Hin Hout.
  - cbn [Nat.add]. rewrite slots_loop_step.
    destruct (Z.leb_spec current end_dt); [lia|]. cbn. rewrite app_nil_r. reflexivity.
  - replace (S (S n) + extra)%nat with (S (S n + extra)) by lia.
    rewrite slots_loop_step.
    destruct Hin as [Hin|Hin]; [discriminate|].
    destruct (Z.leb_spec current end_dt); [|nia].
    unfold Datetime.add_minutes, Datetime.in_range.
    destruct (Z.leb_spec Datetime.min (current + interval_minutes)); [|lia].
    cbn [andb].
    destruct (Z.ltb_spec 0 (Z.of_nat (S n))); [|lia]. cbn [andb].
    destruct (Z.leb_spec (current + interval_minutes) Datetime.max).
    + assert (Hin' : n = 0%nat
                     \/ current + interval_minutes + (Z.of_nat n - 1) * interval_minutes
                        <= end_dt)
        by (destruct n; [left; reflexivity | right; lia]).
      rewrite (IH extra) by (assumption || lia).
      replace (current + interval_minutes + Z.of_nat n * interval_minutes)
        with (current + Z.of_nat (S n) * interval_minutes) by lia.
      destruct (Z.ltb_spec Datetime.max (current + Z.of_nat (S n) * interval_minutes)).
      * destruct (Z.ltb_spec 0 (Z.of_nat n)); [reflexivity | nia].
      * rewrite andb_false_r, labels_from_S, <- app_assoc. reflexivity.
    + destruct (Z.ltb_spec Datetime.max (current + Z.of_nat (S n) * interval_minutes));
        [reflexivity | nia].
Qed.

Lemma slot_count_bounds start_dt end_dt interval_minutes :
  start_dt <= end_dt -> 1 <= interval_minutes ->
  let n := Z.of_nat (slot_count start_dt end_dt interval_minutes) in
  1 <= n /\ start_dt + (n - 1) * interval_minutes <= end_dt
  /\ end_dt < start_dt + n * interval_minutes.
Proof.
  intros Hle Hi. cbv zeta. unfold slot_count.
  assert (0 <= (end_dt - start_dt) / interval_minutes) by (apply Z.div_pos; lia).
  rewrite Z2Nat.id by lia.
  pose proof (Z.mul_div_le (end_dt - start_dt) interval_minutes ltac:(lia)).
  pose proof (Z.mul_succ_div_gt (end_dt - start_dt) interval_minutes ltac:(lia)).
  nia.
Qed.

(** The outcome of the generator for a positive interval. *)
Lemma generate_positive_outcome start_time end_time interval_minutes start_dt end_dt :
  axis_bounds start_time end_time = Returned (start_dt, end_dt) ->
  1 <= interval_minutes ->
  let n := slot_count start_dt end_dt interval_minutes in
  ends_with start_time end_time interval_minutes
    (if Datetime.max <? start_dt + Z.of_nat n * interval_minutes
     then Raised OverflowError
     else Returned (labels_from start_dt interval_minutes start_dt n)).
Proof.
  intros Hb Hi n. pose proof (axis_bounds_range _ _ _ _ Hb) as [Ha Hab].
  destruct (slot_count_bounds start_dt end_dt interval_minutes ltac:(lia) Hi)
    as (Hn & Hin & Hout). fold n in Hn, Hin, Hout.
  split; [destruct (_ <? _); discriminate|].
  exists (S n). intros fuel' Hf.
  rewrite (generate_time_slots_bounds _ _ _ _ _ _ Hb).
  replace fuel' with (S n + (fuel' - S n))%nat by lia.
  rewrite slots_loop_run; try assumption;
    [| unfold Datetime.min; lia | unfold Datetime.max; lia | right; exact Hin].
  destruct (Z.ltb_spec 0 (Z.of_nat n)); [|lia]. reflexivity.
Qed.

(** X1. For an interval of at least one minute that is not huge, the
    generator returns, and the number of slots is the number of whole
    intervals between the start instant and the end instant, plus one. *)
Theorem axis_slot_count start_time end_time interval_minutes start_dt end_dt :
  axis_bounds start_time end_time = Returned (start_dt, end_dt) ->
  1 <= interval_minutes <= Datetime.max - 2879 ->
  exists slots,
    ends_with start_time end_time interval_minutes (Returned slots)
    /\ length slots = slot_count start_dt end_dt interval_minutes
    /\ Z.of_nat (length slots) = (end_dt - start_dt) / interval_minutes + 1.
Proof.
  intros Hb [Hi Hmax].
  pose proof (generate_positive_outcome _ _ _ _ _ Hb Hi) as H. cbv zeta in H.
  pose proof (axis_bounds_range _ _ _ _ Hb) as [Ha Hab].
  destruct (slot_count_bounds start_dt end_dt interval_minutes ltac:(lia) Hi)
    as (Hn & Hin & Hout).
  destruct (Z.ltb_spec Datetime.max
              (start_dt + Z.of_nat (slot_count start_dt end_dt interval_minutes)
                          * interval_minutes)) as [Hov|_]; [nia|].
  eexists. split; [exact H|].
  unfold labels_from. rewrite length_fmap, length_seq. split; [reflexivity|].
  unfold slot_count. rewrite Z2Nat.id; [reflexivity|].
  assert (0 <= (end_dt - start_dt) / interval_minutes) by (apply Z.div_pos; lia). lia.
Qed.

Lemma axis_slot_count_witness :
  exists slots,
    ends_with "0530" "0630" 30 (Returned slots) /\ length slots = 3%nat.
Proof.
  destruct (axis_slot_count "0530" "0630" 30 330 390 eq_refl
              ltac:(unfold Datetime.max; lia)) as (slots & H & Hl & _).
  exists slots. split; [exact H | exact Hl].
Defined.

(** X2. When the instant after the last slot is past the last
    [datetime], the generator raises [OverflowError] and returns no
    slot; this is so for every interval that exceeds the distance from the
    start to the last [datetime]. *)
Theorem axis_interval_overflow start_time end_time interval_minutes start_dt end_dt :
  axis_bounds start_time end_time = Returned (start_dt, end_dt) ->
  1 <= interval_minutes ->
  Datetime.max
  < start_dt + Z.of_nat (slot_count start_dt end_dt interval_minutes) * interval_minutes ->
  ends_with start_time end_time interval_minutes (Raised OverflowError).
Proof.
  intros Hb Hi Hov.
  pose proof (generate_positive_outcome _ _ _ _ _ Hb Hi) as H. cbv zeta in H.
  destruct (Z.ltb_spec Datetime.max
              (start_dt + Z.of_nat (slot_count start_dt end_dt interval_minutes)
                          * interval_minutes)); [exact H | lia].
Qed.

Lemma axis_interval_overflow_witness :
  ends_with "0000" "0100" 10000000000 (Raised OverflowError).
Proof.
  apply (axis_interval_overflow "0000" "0100" 10000000000 0 60 eq_refl);
    [lia | vm_compute; reflexivity].
Defined.

Lemma HHMM_length s h m : HHMM s h m -> String.length s = 4%nat.
Proof. intros (c1 & c2 & c3 & c4 & -> & _). reflexivity. Qed.

Lemma slot_label_format start_dt t :
  slot_label start_dt t = "2400"%string
  \/ exists h m, HHMM (slot_label start_dt t) h m.
Proof.
  unfold slot_label. destruct (_ && _); [left; reflexivity|].
  right. eexists. eexists. apply strftime_HHMM.
Qed.

Lemma labels_from_lookup start_dt interval_minutes current n (k : nat) :
  (k < n)%nat ->
  labels_from start_dt interval_minutes current n !! k
  = Some (slot_label start_dt (current + Z.of_nat k * interval_minutes)).
Proof.
  intros Hk. unfold labels_from. rewrite list_lookup_fmap, lookup_seq_lt by lia.
  reflexivity.
Qed.

Lemma labels_from_elem start_dt interval_minutes current n label :
  label ∈ labels_from start_dt interval_minutes current n ->
  exists k : nat, label = slot_label start_dt (current + Z.of_nat k * interval_minutes).
Proof.
  unfold labels_from. intros H. apply list_elem_of_fmap in H as (k & -> & _). eauto.
Qed.

(** A returned axis is the list of the labels from the start instant
    on. *)
Lemma generate_returned fuel start_time end_time interval_minutes slots :
  generate_time_slots fuel start_time end_time interval_minutes = Returned slots ->
  exists start_dt end_dt (n : nat),
    axis_bounds start_time end_time = Returned (start_dt, end_dt)
    /\ slots = labels_from start_dt interval_minutes start_dt n
    /\ (0 < n)%nat.
Proof.
  unfold generate_time_slots. intros H.
  destruct (axis_bounds start_time end_time) as [[a b]| |] eqn:Hb;
    cbn [mbind outcome_bind] in H; try discriminate.
  apply axis_bounds_range in Hb as Hr.
  apply slots_loop_returned in H as (n & -> & _ & Hout).
  exists a, b, n. repeat split. destruct n; [cbn in Hout; lia | lia].
Qed.

(** X3. Every slot of a returned axis is four characters long: it is
    ["2400"] or a clock time in the format "HHMM", with an hour up to 23
    and a minute up to 59. *)
Theorem axis_labels_are_clock_times fuel start_time end_time interval_minutes slots :
  generate_time_slots fuel start_time end_time interval_minutes = Returned slots ->
  forall label, label ∈ slots ->
    String.length label = 4%nat
    /\ (label = "2400"%string \/ exists h m, HHMM label h m).
Proof.
  intros H label Hin.
  apply generate_returned in H as (a & b & n & _ & -> & _).
  apply labels_from_elem in Hin as [k ->].
  destruct (slot_label_format a (a + Z.of_nat k * interval_minutes)) as [E|(h & m & E)].
  - rewrite E. split; [reflexivity | left; reflexivity].
  - split; [exact (HHMM_length _ _ _ E) | right; eauto].
Qed.

Lemma axis_labels_are_clock_times_witness :
  String.length "2400" = 4%nat
  /\ ("2400"%string = "2400"%string \/ exists h m, HHMM "2400" h m).
Proof.
  apply (axis_labels_are_clock_times 4 "2300" "0100" 60
           ["2300"; "2400"; "0100"]%string eq_refl).
  apply list_elem_of_lookup. exists 1%nat. reflexivity.
Defined.

(** X4. An axis that starts at a clock time in the format "HHMM" has
    that string as its first slot. *)
Theorem axis_starts_with_start_time fuel start_time end_time interval_minutes slots h m :
  HHMM start_time h m ->
  generate_time_slots fuel start_time end_time interval_minutes = Returned slots ->
  head slots = Some start_time.
Proof.
  intros Hs H.
  apply generate_returned in H as (a & b & n & Hb & -> & Hn).
  apply axis_bounds_inv in Hb as (h0 & m0 & Eh & Em & Hmk & _).
  pose proof (HHMM_parts _ _ _ Hs) as (Eh' & Em' & Hmk' & _).
  assert (h0 = h) by congruence. assert (m0 = m) by congruence. subst h0 m0.
  assert (a = h * 60 + m) by congruence. subst a.
  rewrite head_lookup, labels_from_lookup by lia.
  unfold slot_label. cbn [Z.of_nat]. rewrite Z.mul_0_l, Z.add_0_r, Z.ltb_irrefl, andb_false_r.
  f_equal. exact (HHMM_strftime _ _ _ Hs).
Qed.

Lemma HHMM_0530 : HHMM "0530" 5 30.
Proof.
  exists "0"%char, "5"%char, "3"%char, "0"%char.
  repeat split; try reflexivity; vm_compute; discriminate.
Qed.

Lemma HHMM_0630 : HHMM "0630" 6 30.
Proof.
  exists "0"%char, "6"%char, "3"%char, "0"%char.
  repeat split; try reflexivity; vm_compute; discriminate.
Qed.

Lemma axis_starts_with_start_time_witness :
  head ["0530"; "0600"; "0630"]%string = Some "0530"%string.
Proof.
  exact (axis_starts_with_start_time 4 "0530" "0630" 30 _ 5 30 HHMM_0530 eq_refl).
Defined.

Lemma HHMM_bounds start_time end_time h m h' m' :
  HHMM start_time h m -> HHMM end_time h' m' ->
  axis_bounds start_time end_time
  = Returned (h * 60 + m,
              if h' * 60 + m' <=? h * 60 + m then h' * 60 + m' + 1440
              else h' * 60 + m').
Proof.
  intros Hs He.
  destruct (HHMM_axis_bounds start_time end_time h m Hs) as [b Hb];
    [right; eauto|].
  rewrite Hb. f_equal. f_equal.
  apply axis_bounds_inv in Hb as (h0 & m0 & _ & _ & _ & [E|Hend]).
  - exfalso. exact (HHMM_not_2400 _ _ _ He E).
  - destruct Hend as (h1 & m1 & e & Eh & Em & Hmk & ->).
    pose proof (HHMM_parts _ _ _ He) as (Eh' & Em' & Hmk' & _).
    assert (h1 = h') by congruence. assert (m1 = m') by congruence. subst h1 m1.
    assert (e = h' * 60 + m') by congruence. subst e. reflexivity.
Qed.

(** X5. Clock times in the format "HHMM" as start and end: the axis
    starts at the start time of the reference day; an end time that is
    not after the start time is taken on the next day, so that the axis
    spans at least one minute and at most 24 hours, which it does when
    start and end are equal. *)
Theorem overnight_bounds start_time end_time h m h' m' :
  HHMM start_time h m -> HHMM end_time h' m' ->
  exists start_dt end_dt,
    axis_bounds start_time end_time = Returned (start_dt, end_dt)
    /\ start_dt = h * 60 + m
    /\ end_dt = (if h' * 60 + m' <=? h * 60 + m then h' * 60 + m' + 1440
                 else h' * 60 + m')
    /\ 0 < end_dt - start_dt <= 1440
    /\ (start_time = end_time -> end_dt - start_dt = 1440).
Proof.
  intros Hs He.
  pose proof (HHMM_parts _ _ _ Hs) as (Hsh & Hsm & _ & Hrs).
  pose proof (HHMM_parts _ _ _ He) as (Heh & Hem & _ & Hre).
  eexists. eexists. split; [exact (HHMM_bounds _ _ _ _ _ _ Hs He)|].
  split; [reflexivity|]. split; [reflexivity|]. split.
  - destruct (Z.leb_spec (h' * 60 + m') (h * 60 + m)); lia.
  - intros <-. assert (h' = h) by congruence. assert (m' = m) by congruence.
    subst h' m'. rewrite Z.leb_refl. lia.
Qed.

Lemma overnight_bounds_witness :
  exists start_dt end_dt,
    axis_bounds "0630" "0530" = Returned (start_dt, end_dt)
    /\ start_dt = 390 /\ end_dt = 1770.
Proof.
  destruct (overnight_bounds "0630" "0530" 6 30 5 30 HHMM_0630 HHMM_0530)
    as (a & b & Hb & Ha & Hb' & _).
  exists a, b. split; [exact Hb|]. split; [exact Ha | exact Hb'].
Defined.

Lemma strftime_next_day (d : Datetime.t) :
  Datetime.strftime_HM (d + 1440) = Datetime.strftime_HM d.
Proof.
  unfold Datetime.strftime_HM, Datetime.minutes_per_day.
  replace (d + 1440) with (d + 1 * 1440) by lia. rewrite Z_mod_plus_full. reflexivity.
Qed.

(** X6. When the interval divides the time from the start to the end,
    both clock times in the format "HHMM", the last slot of the axis is
    the end time itself, written ["2400"] when the end time is
    ["0000"]. *)
Theorem axis_ends_with_end_time start_time end_time interval_minutes h m h' m' :
  HHMM start_time h m -> HHMM end_time h' m' -> 1 <= interval_minutes ->
  ((if h' * 60 + m' <=? h * 60 + m then h' * 60 + m' + 1440 else h' * 60 + m')
   - (h * 60 + m)) mod interval_minutes = 0 ->
  exists slots,
    ends_with start_time end_time interval_minutes (Returned slots)
    /\ last slots = Some (if h' * 60 + m' =? 0 then "2400"%string else end_time).
Proof.
  intros Hs He Hi Hdiv.
  pose proof (HHMM_bounds _ _ _ _ _ _ Hs He) as Hb.
  pose proof (HHMM_parts _ _ _ Hs) as (_ & _ & _ & Hrs).
  pose proof (HHMM_parts _ _ _ He) as (_ & _ & _ & Hre).
  pose proof (HHMM_strftime _ _ _ He) as Hfmt.
  set (a := h * 60 + m) in *. set (e := h' * 60 + m') in *.
  set (b := if e <=? a then e + 1440 else e) in *.
  assert (Hab : a < b <= 2879) by (unfold b; destruct (Z.leb_spec e a); lia).
  assert (Hdiv' : b - a = interval_minutes * ((b - a) / interval_minutes))
    by (apply Z.div_exact; [lia | exact Hdiv]).
  assert (Hq : 1 <= (b - a) / interval_minutes) by nia.
  pose proof (generate_positive_outcome _ _ _ _ _ Hb Hi) as H. cbv zeta in H.
  set (n := slot_count a b interval_minutes) in *.
  assert (Hn : Z.of_nat n = (b - a) / interval_minutes + 1)
    by (unfold n, slot_count; rewrite Z2Nat.id; lia).
  destruct (Z.ltb_spec Datetime.max (a + Z.of_nat n * interval_minutes)) as [Hov|_].
  { unfold Datetime.max in Hov. nia. }
  eexists. split; [exact H|].
  rewrite last_lookup.
  assert (Hlen : length (labels_from a interval_minutes a n) = n)
    by (unfold labels_from; rewrite length_fmap, length_seq; reflexivity).
  rewrite Hlen, labels_from_lookup by lia. f_equal.
  replace (a + Z.of_nat (Nat.pred n) * interval_minutes) with b by nia.
  unfold slot_label, b.
  destruct (Z.leb_spec e a) as [Hle|Hgt].
  - replace (e + 1440) with (e + 1 * 1440) by lia.
    rewrite Z_mod_plus_full, Z.mod_small by lia.
    destruct (Z.eqb_spec e 0) as [E0|E0].
    + destruct (Z.ltb_spec a (e + 1 * 1440)); [reflexivity | lia].
    + cbn [andb]. replace (e + 1 * 1440) with (e + 1440) by lia.
      rewrite strftime_next_day. exact Hfmt.
  - rewrite Z.mod_small by lia.
    destruct (Z.eqb_spec e 0) as [E0|E0]; [lia|]. exact Hfmt.
Qed.

Lemma axis_ends_with_end_time_witness :
  exists slots,
    ends_with "0530" "0630" 30 (Returned slots)
    /\ last slots = Some "0630"%string.
Proof.
  exact (axis_ends_with_end_time "0530" "0630" 30 5 30 6 30 HHMM_0530 HHMM_0630
           ltac:(lia) eq_refl).
Defined.

Lemma four_digits_range s h m :
  four_digits s h m -> 0 <= h <= 99 /\ 0 <= m <= 99.
Proof.
  intros (c1 & c2 & c3 & c4 & _ & H1 & H2 & H3 & H4 & -> & ->).
  destruct (digit_facts c1 H1) as (_ & _ & _ & _ & ?).
  destruct (digit_facts c2 H2) as (_ & _ & _ & _ & ?).
  destruct (digit_facts c3 H3) as (_ & _ & _ & _ & ?).
  destruct (digit_facts c4 H4) as (_ & _ & _ & _ & ?).
  lia.
Qed.

(** Two-digit fields that are not a clock time are rejected with
    [ValueError]. *)
Lemma make_invalid hour minute :
  0 <= hour <= 99 -> 0 <= minute <= 99 -> 23 < hour \/ 59 < minute ->
  Datetime.make hour minute = Raised ValueError.
Proof.
  intros Hh Hm Hbad. unfold Datetime.make, Datetime.fits_c_int.
  destruct (Z.leb_spec (-2147483648) hour); [|lia].
  destruct (Z.leb_spec hour 2147483647); [|lia].
  destruct (Z.leb_spec (-2147483648) minute); [|lia].
  destruct (Z.leb_spec minute 2147483647); [|lia].
  cbn [andb].
  destruct (Z.leb_spec 0 hour), (Z.leb_spec hour 23), (Z.leb_spec 0 minute),
    (Z.leb_spec minute 59); cbn [andb]; try reflexivity. lia.
Qed.

(** X7. Four digits that are not a clock time, an hour above 23 or a
    minute above 59, make the generator raise [ValueError]: as the start
    time (which includes ["2400"]), whatever the end time is, and, after
    a start time in the format "HHMM", as the end time, except for
    ["2400"]. *)
Theorem invalid_clock_time_raises fuel start_time end_time interval_minutes h m :
  (four_digits start_time h m
   \/ ((exists hs ms, HHMM start_time hs ms)
       /\ four_digits end_time h m /\ end_time <> "2400"%string)) ->
  23 < h \/ 59 < m ->
  generate_time_slots fuel start_time end_time interval_minutes = Raised ValueError.
Proof.
  intros Hd Hbad. unfold generate_time_slots.
  assert (Hb : axis_bounds start_time end_time = Raised ValueError);
    [|rewrite Hb; reflexivity].
  unfold axis_bounds.
  destruct Hd as [Hd|[(hs & ms & Hs) [Hd Hne]]].
  - pose proof (four_digits_range _ _ _ Hd) as [Hh Hm].
    apply four_digits_parts in Hd as [Eh Em]. rewrite Eh, Em.
    cbn [or_raise mbind outcome_bind].
    rewrite (make_invalid h m Hh Hm Hbad).
    destruct (String.eqb end_time "2400"); cbn [mbind outcome_bind]; [reflexivity|].
    destruct (Str.int (Str.take 2 end_time)); cbn [or_raise mbind outcome_bind];
      [|reflexivity].
    destruct (Str.int (Str.drop 2 end_time)); cbn [or_raise mbind outcome_bind];
      reflexivity.
  - pose proof (HHMM_parts _ _ _ Hs) as (Esh & Esm & Hmk & _).
    pose proof (four_digits_range _ _ _ Hd) as [Hh Hm].
    apply four_digits_parts in Hd as [Eh Em].
    rewrite Esh, Esm, Eh, Em. cbn [or_raise mbind outcome_bind].
    destruct (String.eqb_spec end_time "2400") as [E|_]; [contradiction|].
    cbn [mbind outcome_bind].
    rewrite Hmk, (make_invalid h m Hh Hm Hbad). reflexivity.
Qed.

Lemma HHMM_0100 : HHMM "0100" 1 0.
Proof.
  exists "0"%char, "1"%char, "0"%char, "0"%char.
  repeat split; try reflexivity; vm_compute; discriminate.
Qed.

Lemma invalid_clock_time_raises_witness :
  generate_time_slots 10 "2400" "0100" 30 = Raised ValueError
  /\ generate_time_slots 10 "0100" "0760" 30 = Raised ValueError.
Proof.
  split.
  - apply (invalid_clock_time_raises 10 "2400" "0100" 30 24 0); [left | left; lia].
    exists "2"%char, "4"%char, "0"%char, "0"%char. repeat split.
  - apply (invalid_clock_time_raises 10 "0100" "0760" 30 7 60);
      [right | right; lia].
    split; [exists 1, 0; exact HHMM_0100|]. split; [|discriminate].
    exists "0"%char, "7"%char, "6"%char, "0"%char. repeat split.
Defined.

(** A start field beyond the C integers makes the constructor raise
    [OverflowError], whatever the end time is. *)
Example start_field_overflow :
  generate_time_slots 10 "002147483648" "9999" 30 = Raised OverflowError.
Proof. reflexivity. Qed.

(** ** The hierarchy parser *)

(** Induction on strings for functions that read the separator: the
    property of the rest after one character and after three characters
    may be used. *)
Lemma string_sep_ind (P : string -> Prop) :
  P EmptyString ->
  (forall c r, P r -> (forall r', r = String "-" (String " " r') -> P r') ->
               P (String c r)) ->
  forall s, P s.
Proof.
  intros Hnil Hcons s.
  assert (H : forall n s, (String.length s <= n)%nat -> P s).
  { clear s. induction n as [|n IH]; intros s Hlen.
    - destruct s; [exact Hnil | cbn in Hlen; lia].
    - destruct s as [|c r]; [exact Hnil|]. cbn in Hlen.
      apply Hcons; [apply IH; lia|].
      intros r' ->. apply IH. cbn in Hlen. lia. }
  exact (H (String.length s) s (le_n _)).
Qed.

Lemma split_from_step c r cur :
  Str.split_from (String c r) cur =
  match r with
  | String c1 (String c2 r') =>
      if Ascii.eqb c " " && Ascii.eqb c1 "-" && Ascii.eqb c2 " "
      then Str.rev cur :: Str.split_from r' EmptyString
      else Str.split_from r (String c cur)
  | _ => Str.split_from r (String c cur)
  end.
Proof.
  destruct r as [|c1 [|c2 r']].
  - destruct c as [[] [] [] [] [] [] [] []]; reflexivity.
  - destruct c as [[] [] [] [] [] [] [] []]; try reflexivity;
      destruct c1 as [[] [] [] [] [] [] [] []]; reflexivity.
  - destruct (Ascii.eqb_spec c " ") as [->|Hc].
    + destruct (Ascii.eqb_spec c1 "-") as [->|Hc1].
      * destruct (Ascii.eqb_spec c2 " ") as [->|Hc2]; [reflexivity|].
        destruct c2 as [[] [] [] [] [] [] [] []]; try reflexivity. congruence.
      * destruct c1 as [[] [] [] [] [] [] [] []]; try reflexivity. congruence.
    + destruct c as [[] [] [] [] [] [] [] []]; try reflexivity. congruence.
Qed.

Lemma count_sep_step c r :
  count_sep (String c r) =
  match r with
  | String c1 (String c2 r') =>
      if Ascii.eqb c " " && Ascii.eqb c1 "-" && Ascii.eqb c2 " "
      then S (count_sep r') else count_sep r
  | _ => count_sep r
  end.
Proof.
  destruct r as [|c1 [|c2 r']].
  - destruct c as [[] [] [] [] [] [] [] []]; reflexivity.
  - destruct c as [[] [] [] [] [] [] [] []]; try reflexivity;
      destruct c1 as [[] [] [] [] [] [] [] []]; reflexivity.
  - destruct (Ascii.eqb_spec c " ") as [->|Hc].
    + destruct (Ascii.eqb_spec c1 "-") as [->|Hc1].
      * destruct (Ascii.eqb_spec c2 " ") as [->|Hc2]; [reflexivity|].
        destruct c2 as [[] [] [] [] [] [] [] []]; try reflexivity. congruence.
      * destruct c1 as [[] [] [] [] [] [] [] []]; try reflexivity. congruence.
    + destruct c as [[] [] [] [] [] [] [] []]; try reflexivity. congruence.
Qed.

Lemma contains_sep_step c r :
  Str.contains_sep (String c r) =
  match r with
  | String c1 (String c2 r') =>
      if Ascii.eqb c " " && Ascii.eqb c1 "-" && Ascii.eqb c2 " "
      then true else Str.contains_sep r
  | _ => Str.contains_sep r
  end.
Proof.
  destruct r as [|c1 [|c2 r']].
  - destruct c as [[] [] [] [] [] [] [] []]; reflexivity.
  - destruct c as [[] [] [] [] [] [] [] []]; try reflexivity;
      destruct c1 as [[] [] [] [] [] [] [] []]; reflexivity.
  - destruct (Ascii.eqb_spec c " ") as [->|Hc].
    + destruct (Ascii.eqb_spec c1 "-") as [->|Hc1].
      * destruct (Ascii.eqb_spec c2 " ") as [->|Hc2]; [reflexivity|].
        destruct c2 as [[] [] [] [] [] [] [] []]; try reflexivity. congruence.
      * destruct c1 as [[] [] [] [] [] [] [] []]; try reflexivity. congruence.
    + destruct c as [[] [] [] [] [] [] [] []]; try reflexivity. congruence.
Qed.

Lemma sep_eqb_true c c1 c2 :
  Ascii.eqb c " " && Ascii.eqb c1 "-" && Ascii.eqb c2 " " = true ->
  c = " "%char /\ c1 = "-"%char /\ c2 = " "%char.
Proof.
  intros H. apply andb_prop in H as [H H2]. apply andb_prop in H as [H0 H1].
  apply Ascii.eqb_eq in H0, H1, H2. auto.
Qed.

Lemma split_from_length s : forall cur,
  length (Str.split_from s cur) = S (count_sep s).
Proof.
  induction s as [|c r IH1 IH3] using string_sep_ind; intros cur; [reflexivity|].
  rewrite split_from_step, count_sep_step.
  destruct r as [|c1 [|c2 r']]; try apply IH1.
  destruct (Ascii.eqb c " " && Ascii.eqb c1 "-" && Ascii.eqb c2 " ") eqn:E;
    [|apply IH1].
  apply sep_eqb_true in E as (-> & -> & ->).
  cbn [length]. f_equal. apply (IH3 r' eq_refl).
Qed.

Lemma contains_sep_count s :
  Str.contains_sep s = negb (Nat.eqb (count_sep s) 0).
Proof.
  induction s as [|c r IH1 IH3] using string_sep_ind; [reflexivity|].
  rewrite contains_sep_step, count_sep_step.
  destruct r as [|c1 [|c2 r']]; try apply IH1.
  destruct (Ascii.eqb c " " && Ascii.eqb c1 "-" && Ascii.eqb c2 " "); [reflexivity|].
  apply IH1.
Qed.

Lemma removelast_last_length {A} (l : list A) :
  l <> [] -> length (removelast l) = Nat.pred (length l).
Proof.
  intros Hl. destruct (exists_last Hl) as (l' & x & ->).
  rewrite removelast_last, length_app. cbn. lia.
Qed.

(** X8. The depth of a name is the number of separators in it: a name
    without separator is its own leaf, without ancestors; a name with [n]
    separators has [n] ancestors. *)
Theorem parse_hierarchy_depth group_name :
  length (parse_hierarchy group_name).1 = count_sep group_name
  /\ ((parse_hierarchy group_name).1 = [] <-> Str.contains_sep group_name = false)
  /\ (Str.contains_sep group_name = false ->
      parse_hierarchy group_name = ([], group_name)).
Proof.
  unfold parse_hierarchy. rewrite contains_sep_count.
  pose proof (split_from_length group_name EmptyString) as Hlen.
  fold (Str.split_sep group_name) in Hlen.
  destruct (count_sep group_name) as [|n] eqn:En; cbn [Nat.eqb negb fst].
  - repeat split; reflexivity.
  - assert (Hne : Str.strip <$> Str.split_sep group_name <> []).
    { intros E. apply (f_equal length) in E. rewrite length_fmap, Hlen in E.
      discriminate. }
    split; [|split].
    + rewrite removelast_last_length by exact Hne. rewrite length_fmap, Hlen.
      reflexivity.
    + split; [|discriminate]. intros E. apply (f_equal length) in E.
      rewrite removelast_last_length in E by exact Hne.
      rewrite length_fmap, Hlen in E. discriminate.
    + discriminate.
Qed.

(** *** Stripping *)

Lemma string_app_cons x (a b : string) : String x a +:+ b = String x (a +:+ b).
Proof. reflexivity. Qed.

Lemma string_app_nil_l (a : string) : EmptyString +:+ a = a.
Proof. reflexivity. Qed.

Lemma string_app_assoc (a b c : string) : (a +:+ b) +:+ c = a +:+ (b +:+ c).
Proof.
  induction a as [|x a IH]; [reflexivity|].
  rewrite !string_app_cons. f_equal. exact IH.
Qed.

Lemma string_app_nil_r (a : string) : a +:+ EmptyString = a.
Proof.
  induction a as [|x a IH]; [reflexivity|].
  rewrite string_app_cons. f_equal. exact IH.
Qed.

Lemma rev_onto_app s : forall acc, Str.rev_onto s acc = Str.rev s +:+ acc.
Proof.
  unfold Str.rev. induction s as [|c r IH]; intros acc; [reflexivity|].
  cbn [Str.rev_onto]. rewrite IH, (IH (String c EmptyString)).
  rewrite string_app_assoc. reflexivity.
Qed.

Lemma rev_cons c s : Str.rev (String c s) = Str.rev s +:+ String c EmptyString.
Proof. unfold Str.rev at 1. cbn [Str.rev_onto]. apply rev_onto_app. Qed.

Lemma rev_app (a b : string) : Str.rev (a +:+ b) = Str.rev b +:+ Str.rev a.
Proof.
  induction a as [|x a IH].
  - rewrite string_app_nil_l, string_app_nil_r. reflexivity.
  - rewrite string_app_cons, !rev_cons, IH, string_app_assoc. reflexivity.
Qed.

Lemma rev_involutive (s : string) : Str.rev (Str.rev s) = s.
Proof.
  induction s as [|c s IH]; [reflexivity|].
  rewrite rev_cons, rev_app, IH. reflexivity.
Qed.

Lemma drop_while_idemp p s : Str.drop_while p (Str.drop_while p s) = Str.drop_while p s.
Proof.
  induction s as [|c s IH]; [reflexivity|]. cbn [Str.drop_while].
  destruct (p c) eqn:E; [exact IH|]. cbn [Str.drop_while]. rewrite E. reflexivity.
Qed.

Lemma drop_while_head p s c r : Str.drop_while p s = String c r -> p c = false.
Proof.
  induction s as [|x s IH]; [discriminate|]. cbn [Str.drop_while].
  destruct (p x) eqn:E; [exact IH|]. intros [= <- <-]. exact E.
Qed.

Lemma drop_while_snoc p s c :
  p c = false ->
  Str.drop_while p (s +:+ String c EmptyString)
  = Str.drop_while p s +:+ String c EmptyString.
Proof.
  intros Hc. induction s as [|x s IH].
  - rewrite string_app_nil_l. cbn [Str.drop_while]. rewrite Hc. reflexivity.
  - rewrite string_app_cons. cbn [Str.drop_while].
    destruct (p x); [exact IH | reflexivity].
Qed.

Lemma rstrip_idemp s : Str.rstrip (Str.rstrip s) = Str.rstrip s.
Proof. unfold Str.rstrip. rewrite rev_involutive, drop_while_idemp. reflexivity. Qed.

Lemma rstrip_cons c r :
  Str.isspace c = false -> Str.rstrip (String c r) = String c (Str.rstrip r).
Proof.
  intros Hc. unfold Str.rstrip.
  rewrite rev_cons, drop_while_snoc, rev_app by exact Hc. reflexivity.
Qed.

(** Stripping a stripped string changes nothing. *)
Lemma strip_idemp s : Str.strip (Str.strip s) = Str.strip s.
Proof.
  unfold Str.strip, Str.lstrip.
  destruct (Str.drop_while Str.isspace s) as [|c r] eqn:E; [reflexivity|].
  pose proof (drop_while_head _ _ _ _ E) as Hc.
  rewrite rstrip_cons by exact Hc. cbn [Str.drop_while]. rewrite Hc.
  rewrite <- rstrip_cons by exact Hc. apply rstrip_idemp.
Qed.

(** A stripped string does not start and does not end with white
    space. *)
Lemma strip_ends s :
  (forall c r, Str.strip s = String c r -> Str.isspace c = false)
  /\ (forall c r, Str.rev (Str.strip s) = String c r -> Str.isspace c = false).
Proof.
  split.
  - intros c r H. rewrite <- strip_idemp in H. unfold Str.strip at 1 in H.
    unfold Str.lstrip in H.
    destruct (Str.drop_while Str.isspace (Str.strip s)) as [|c' r'] eqn:E.
    + discriminate H.
    + pose proof (drop_while_head _ _ _ _ E) as Hc.
      rewrite rstrip_cons in H by exact Hc. injection H as <- _. exact Hc.
  - intros c r H. unfold Str.strip, Str.rstrip in H. rewrite rev_involutive in H.
    exact (drop_while_head _ _ _ _ H).
Qed.

Lemma elem_of_removelast_last {A} (l : list A) (d x : A) :
  l <> [] -> x ∈ removelast l ++ [List.last l d] -> x ∈ l.
Proof.
  intros Hl. destruct (exists_last Hl) as (l' & y & ->).
  rewrite removelast_last, last_last. auto.
Qed.

(** X9. The labels of a name with separators are stripped: no ancestor
    and no leaf starts or ends with white space, and stripping one of
    them again changes nothing. *)
Theorem parse_hierarchy_labels_stripped group_name label :
  Str.contains_sep group_name = true ->
  label ∈ (parse_hierarchy group_name).1 ++ [(parse_hierarchy group_name).2] ->
  Str.strip label = label
  /\ (forall c r, label = String c r -> Str.isspace c = false)
  /\ (forall c r, Str.rev label = String c r -> Str.isspace c = false).
Proof.
  intros Hsep Hin. unfold parse_hierarchy in Hin. rewrite Hsep in Hin. cbn [fst snd] in Hin.
  apply elem_of_removelast_last in Hin.
  - apply list_elem_of_fmap in Hin as (part & -> & _).
    split; [apply strip_idemp|]. apply strip_ends.
  - intros E. apply (f_equal length) in E.
    unfold Str.split_sep in E. rewrite length_fmap, split_from_length in E.
    discriminate.
Qed.

Lemma parse_hierarchy_labels_stripped_witness :
  Str.strip "Planners" = "Planners"%string.
Proof.
  apply (parse_hierarchy_labels_stripped "Players  -  Planners - AOs" "Planners" eq_refl).
  apply list_elem_of_lookup. exists 1%nat. reflexivity.
Defined.

Lemma join_cons sep x y l :
  Str.join sep (x :: y :: l) = x +:+ sep +:+ Str.join sep (y :: l).
Proof. reflexivity. Qed.

Lemma split_from_join s : forall cur,
  Str.join " - " (Str.split_from s cur) = Str.rev cur +:+ s.
Proof.
  induction s as [|c r IH1 IH3] using string_sep_ind; intros cur.
  - cbn. rewrite string_app_nil_r. reflexivity.
  - assert (Hdef : Str.join " - " (Str.split_from r (String c cur))
                   = Str.rev cur +:+ String c r).
    { rewrite IH1, rev_cons, string_app_assoc. reflexivity. }
    rewrite split_from_step.
    destruct r as [|c1 [|c2 r']]; try exact Hdef.
    destruct (Ascii.eqb c " " && Ascii.eqb c1 "-" && Ascii.eqb c2 " ") eqn:E;
      [|exact Hdef].
    apply sep_eqb_true in E as (-> & -> & ->).
    pose proof (split_from_length r' EmptyString) as Hlen.
    specialize (IH3 r' eq_refl EmptyString).
    destruct (Str.split_from r' EmptyString) as [|y l]; [discriminate Hlen|].
    rewrite join_cons, IH3. reflexivity.
Qed.

(** Joining the parts of a name with the separator gives the name
    back. *)
Lemma split_sep_join s : Str.join " - " (Str.split_sep s) = s.
Proof. unfold Str.split_sep. rewrite split_from_join. reflexivity. Qed.

(** X10. A name whose parts between the separators carry no white space
    of their own is the join of its ancestors and its leaf with the
    separator: parsing such a name loses nothing. *)
Theorem parse_hierarchy_join group_name :
  Str.contains_sep group_name = true ->
  Forall (fun part => Str.strip part = part) (Str.split_sep group_name) ->
  Str.join " - " ((parse_hierarchy group_name).1 ++ [(parse_hierarchy group_name).2])
  = group_name.
Proof.
  intros Hsep Hparts. unfold parse_hierarchy. rewrite Hsep. cbn [fst snd].
  assert (Hid : Str.strip <$> Str.split_sep group_name = Str.split_sep group_name).
  { induction Hparts as [|x l Hx _ IH]; [reflexivity|]. cbn. rewrite Hx, IH. reflexivity. }
  rewrite Hid.
  assert (Hne : Str.split_sep group_name <> []).
  { intros E. apply (f_equal length) in E. unfold Str.split_sep in E.
    rewrite split_from_length in E. discriminate. }
  destruct (exists_last Hne) as (l' & x & E). rewrite E at 1 2.
  rewrite removelast_last, last_last, <- E. apply split_sep_join.
Qed.

Lemma parse_hierarchy_join_witness :
  Str.join " - " (["Players"; "Planners"] ++ ["AOs"])
  = "Players - Planners - AOs".
Proof.
  apply (parse_hierarchy_join "Players - Planners - AOs" eq_refl).
  repeat constructor.
Defined.

(** ** The store *)

Section DictMore.
Context {K V : Type} `{EqDecision K}.
Implicit Types (k : K) (d : list (K * V)).

Lemma dict_lookup_keys k d : is_Some (Dict.lookup k d) <-> k ∈ Dict.keys d.
Proof.
  unfold Dict.keys. induction d as [|[k0 v0] d IH]; cbn.
  - split; [intros [? ?]; discriminate | intros H; inv H].
  - destruct (decide (k = k0)) as [->|Hne].
    + split; [intros _; left | eauto].
    + rewrite IH. split; [intros H; right; exact H|].
      intros H. inv H; first [congruence | assumption].
Qed.

Lemma dict_mem_keys k d : Dict.mem k d = true <-> k ∈ Dict.keys d.
Proof. rewrite dict_mem_true. apply dict_lookup_keys. Qed.

Lemma dict_set_fresh k (v : V) d :
  Dict.mem k d = false -> Dict.set k v d = d ++ [(k, v)].
Proof.
  unfold Dict.mem. induction d as [|[k0 v0] d IH]; cbn; [reflexivity|].
  destruct (decide (k = k0)) as [->|Hne]; cbn.
  - discriminate.
  - intros H. rewrite IH by exact H. reflexivity.
Qed.


Lemma dict_update_absent k (f : V -> V) d :
  Dict.lookup k d = None -> Dict.update k f d = d.
Proof.
  induction d as [|[k0 v0] d IH]; cbn; [reflexivity|].
  destruct (decide (k = k0)); [discriminate|]. intros H. rewrite IH by exact H.
  reflexivity.
Qed.

End DictMore.

Lemma add_group_run st group_name acts locs :
  add_group group_name acts locs st =
  (Returned (),
   if Dict.mem group_name (groups st) then st
   else {| time_slots := time_slots st;
           groups := groups st ++ [(group_name, new_group group_name acts locs)];
           schedule_data := schedule_data st |}).
Proof.
  unfold add_group, new_group.
  destruct (parse_hierarchy group_name) as [hier leaf]. cbn [fst snd].
  unfold mbind, M_bind, get.
  destruct (Dict.mem group_name (groups st)) eqn:E; cbn [negb]; [reflexivity|].
  rewrite set_groups_run, dict_set_fresh by exact E. reflexivity.
Qed.

(** The groups after [add_activity]: the group is made if it is missing,
    the activity is set, and the location is appended when it is not
    empty and not yet there. *)
Lemma add_activity_run st group_name time_slot activity location :
  let gs1 := if Dict.mem group_name (groups st) then groups st
             else groups st ++ [(group_name, new_group group_name None None)] in
  let gs2 := Dict.update group_name (set_activity time_slot activity) gs1 in
  let locs := from_option locations [] (Dict.lookup group_name gs2) in
  add_activity group_name time_slot activity location st =
  (Returned (),
   {| time_slots := time_slots st;
      groups := if negb (String.eqb location "") && negb (bool_decide (location ∈ locs))
                then Dict.update group_name (append_location location) gs2
                else gs2;
      schedule_data := schedule_data st |}).
Proof.
  cbv zeta. rewrite add_activity_exec. unfold exec.
  destruct (Dict.mem group_name (groups st)) eqn:E; cbn [negb].
  - cbn [mret M_ret snd]. unfold group_locations. cbn [groups].
    destruct (_ && _); reflexivity.
  - rewrite add_group_run, E. cbn [snd time_slots groups schedule_data].
    unfold group_locations. cbn [groups].
    destruct (_ && _); reflexivity.
Qed.

Lemma dict_lookup_snoc {V} (k k' : string) (v : V) (d : list (string * V)) :
  Dict.lookup k' (d ++ [(k, v)])
  = match Dict.lookup k' d with
    | Some x => Some x
    | None => if decide (k' = k) then Some v else None
    end.
Proof.
  induction d as [|[k0 v0] d IH]; cbn.
  - destruct (decide (k' = k)); reflexivity.
  - destruct (decide (k' = k0)); [reflexivity | exact IH].
Qed.

(** The entry of the group after the first two steps of
    [add_activity]. *)
Lemma add_activity_entry st group_name time_slot activity :
  let gs1 := if Dict.mem group_name (groups st) then groups st
             else groups st ++ [(group_name, new_group group_name None None)] in
  Dict.lookup group_name
    (Dict.update group_name (set_activity time_slot activity) gs1)
  = Some (set_activity time_slot activity
            (default (new_group group_name None None)
               (Dict.lookup group_name (groups st))))
  /\ forall name, name <> group_name ->
       Dict.lookup name (Dict.update group_name (set_activity time_slot activity) gs1)
       = Dict.lookup name (groups st).
Proof.
  cbv zeta. split.
  - rewrite dict_lookup_update.
    destruct (decide (group_name = group_name)); [|congruence].
    destruct (Dict.mem group_name (groups st)) eqn:E.
    + apply dict_mem_true in E as [g Hg]. rewrite Hg. reflexivity.
    + assert (Hn : Dict.lookup group_name (groups st) = None).
      { destruct (Dict.lookup group_name (groups st)) eqn:El; [|reflexivity].
        unfold Dict.mem in E. rewrite El in E. apply bool_decide_eq_false in E.
        exfalso. apply E. eauto. }
      rewrite dict_lookup_snoc, Hn.
      destruct (decide (group_name = group_name)); [reflexivity | congruence].
  - intros name Hne. rewrite dict_lookup_update.
    destruct (decide (name = group_name)); [congruence|].
    destruct (Dict.mem group_name (groups st)); [reflexivity|].
    rewrite dict_lookup_snoc.
    destruct (Dict.lookup name (groups st)); [reflexivity|].
    destruct (decide (name = group_name)); [congruence | reflexivity].
Qed.

(** The entry of the group after [add_activity], and the entries of the
    other groups. *)
Lemma add_activity_lookup st group_name time_slot activity location :
  let st' := exec (add_activity group_name time_slot activity location) st in
  let g0 := default (new_group group_name None None)
              (Dict.lookup group_name (groups st)) in
  Dict.lookup group_name (groups st')
  = Some ((if negb (String.eqb location "")
              && negb (bool_decide (location ∈ locations g0))
           then append_location location else id)
            (set_activity time_slot activity g0))
  /\ forall name, name <> group_name ->
       Dict.lookup name (groups st') = Dict.lookup name (groups st).
Proof.
  cbv zeta. unfold exec. rewrite add_activity_run. cbn [snd groups].
  destruct (add_activity_entry st group_name time_slot activity) as [He Ho].
  cbv zeta in He, Ho. rewrite He. cbn [from_option set_activity locations].
  destruct (_ && _); split.
  - rewrite dict_lookup_update.
    destruct (decide (group_name = group_name)); [|congruence]. rewrite He. reflexivity.
  - intros name Hne. rewrite dict_lookup_update.
    destruct (decide (name = group_name)); [congruence|]. apply Ho. exact Hne.
  - exact He.
  - exact Ho.
Qed.

Lemma activity_at_lookup group_name time_slot st g :
  Dict.lookup group_name (groups st) = Some g ->
  activity_at group_name time_slot st = activities g !! time_slot.
Proof. unfold activity_at. intros ->. reflexivity. Qed.

(** X11. [add_activity] always returns; afterwards the activity of the
    group at the time slot is the one given, replacing an earlier one, and
    the activities of the group at the other time slots are what they
    were. *)
Theorem add_activity_stores_activity st group_name time_slot activity location :
  let st' := exec (add_activity group_name time_slot activity location) st in
  result (add_activity group_name time_slot activity location) st = Returned ()
  /\ registered group_name st'
  /\ activity_at group_name time_slot st' = Some activity
  /\ forall slot, slot <> time_slot ->
       activity_at group_name slot st' = activity_at group_name slot st.
Proof.
  cbv zeta.
  destruct (add_activity_lookup st group_name time_slot activity location) as [Hg _].
  cbv zeta in Hg. split; [|split; [|split]].
  - unfold result. rewrite add_activity_run. reflexivity.
  - apply dict_mem_true. rewrite Hg. eauto.
  - rewrite (activity_at_lookup _ _ _ _ Hg).
    destruct (_ && _); cbn; apply lookup_insert_eq.
  - intros slot Hslot.
    rewrite (activity_at_lookup _ _ _ _ Hg).
    assert (E : forall g, activities
                  ((if negb (String.eqb location "")
                       && negb (bool_decide (location ∈ locations g))
                    then append_location location else id)
                     (set_activity time_slot activity g)) !! slot
                = activities g !! slot).
    { intros g.
      destruct (negb (String.eqb location "")
                && negb (bool_decide (location ∈ locations g)));
        cbn; apply lookup_insert_ne; congruence. }
    rewrite E. unfold activity_at.
    destruct (Dict.lookup group_name (groups st)); reflexivity.
Qed.

(** X12. [add_activity] appends the location to the locations of the
    group when it is not the empty string and not among them, and leaves
    them as they are otherwise: the earlier locations keep their order
    and the empty string is never added. *)
Theorem add_activity_appends_location st group_name time_slot activity location :
  let st' := exec (add_activity group_name time_slot activity location) st in
  group_locations group_name st'
  = group_locations group_name st
    ++ (if negb (String.eqb location "")
           && negb (bool_decide (location ∈ group_locations group_name st))
        then [location] else [])
  /\ (location <> EmptyString -> location ∈ group_locations group_name st').
Proof.
  cbv zeta.
  destruct (add_activity_lookup st group_name time_slot activity location) as [Hg _].
  cbv zeta in Hg.
  assert (Heq : group_locations group_name
                  (exec (add_activity group_name time_slot activity location) st)
                = group_locations group_name st
                  ++ (if negb (String.eqb location "")
                         && negb (bool_decide
                                    (location ∈ group_locations group_name st))
                      then [location] else [])).
  { unfold group_locations at 1. rewrite Hg. cbn [from_option].
    assert (El : locations (default (new_group group_name None None)
                              (Dict.lookup group_name (groups st)))
                 = group_locations group_name st).
    { unfold group_locations. destruct (Dict.lookup group_name (groups st)); reflexivity. }
    set (g0 := default (new_group group_name None None)
                 (Dict.lookup group_name (groups st))) in *.
    rewrite El.
    destruct (negb (String.eqb location "")
              && negb (bool_decide (location ∈ group_locations group_name st)));
      cbn [append_location set_activity locations id]; rewrite El; [reflexivity|].
    rewrite app_nil_r. reflexivity. }
  split; [exact Heq|].
  intros Hne. rewrite Heq.
  destruct (String.eqb_spec location "") as [E|_]; [contradiction|]. cbn [negb andb].
  destruct (bool_decide (location ∈ group_locations group_name st)) eqn:Ein; cbn [negb].
  - apply bool_decide_eq_true in Ein. rewrite app_nil_r. exact Ein.
  - apply elem_of_app. right. constructor.
Qed.

Lemma add_activity_appends_location_witness :
  "Tent A" ∈ group_locations "Leads"
               (exec (add_activity "Leads" "0600" "CUB" "Tent A") init).
Proof.
  apply (add_activity_appends_location init "Leads" "0600" "CUB" "Tent A").
  discriminate.
Defined.

Lemma set_time_period_run st fuel start_time end_time interval_minutes :
  set_time_period fuel start_time end_time interval_minutes st =
  match generate_time_slots fuel start_time end_time interval_minutes with
  | Returned slots =>
      (Returned (), {| time_slots := slots; groups := groups st;
                       schedule_data := schedule_data st |})
  | Raised e => (Raised e, st)
  | OutOfFuel => (OutOfFuel, st)
  end.
Proof.
  unfold set_time_period, mbind, M_bind, lift.
  destruct (generate_time_slots fuel start_time end_time interval_minutes); reflexivity.
Qed.







(** X15. A call of [set_time_period] that returns leaves the groups as
    they are and sets a time axis that is not empty, so that the table
    can be built; a call that raises leaves the whole state, the earlier
    time slots included, as it was. *)
Theorem set_time_period_outcome st fuel start_time end_time interval_minutes :
  let call := set_time_period fuel start_time end_time interval_minutes in
  (result call st = Returned () ->
     groups (exec call st) = groups st
     /\ time_slots (exec call st) <> []
     /\ generate_time_slots fuel start_time end_time interval_minutes
        = Returned (time_slots (exec call st))
     /\ exists table, result build_schedule_structure (exec call st) = Returned table)
  /\ (forall e, result call st = Raised e -> exec call st = st).
Proof.
  cbv zeta. unfold result, exec. rewrite set_time_period_run.
  destruct (generate_time_slots fuel start_time end_time interval_minutes)
    as [slots|err|] eqn:E; cbn [fst snd]; split; try discriminate; try reflexivity.
  - intros _. cbn [groups time_slots].
    apply generate_returned in E as (a & b & n & _ & -> & Hn).
    assert (Hne : labels_from a interval_minutes a n <> []).
    { destruct n; [lia|]. rewrite labels_from_S. discriminate. }
    repeat split; [exact Hne|].
    rewrite build_run. cbn [fst time_slots].
    destruct (labels_from a interval_minutes a n); [congruence|]. eauto.
Qed.

Lemma removelast_app_last {A} (l : list A) (d : A) :
  l <> [] -> removelast l ++ [List.last l d] = l.
Proof.
  intros Hl. destruct (exists_last Hl) as (l' & x & ->).
  rewrite removelast_last, last_last. reflexivity.
Qed.

(** X16. The sort key of a group whose entry holds the parse of its name:
    the name alone when it has no separator, the stripped parts of the
    name otherwise; in both cases one label more than the name has
    separators. *)
Theorem hierarchy_key_of_name group_name group_data :
  entry_parsed (group_name, group_data) ->
  hierarchy_key group_name group_data
  = (if Str.contains_sep group_name then Str.strip <$> Str.split_sep group_name
     else [group_name])
  /\ length (hierarchy_key group_name group_data) = S (count_sep group_name).
Proof.
  unfold entry_parsed. cbn [fst snd]. intros Hp.
  pose proof (split_from_length group_name EmptyString) as Hsplit.
  fold (Str.split_sep group_name) in Hsplit.
  unfold hierarchy_key.
  destruct (Str.contains_sep group_name) eqn:Hsep.
  - unfold parse_hierarchy in Hp. rewrite Hsep in Hp. injection Hp as Hh Hl.
    assert (Hne : Str.strip <$> Str.split_sep group_name <> []).
    { intros E. apply (f_equal length) in E. rewrite length_fmap, Hsplit in E.
      discriminate. }
    rewrite Hh, Hl.
    destruct (removelast (Str.strip <$> Str.split_sep group_name)) as [|x l] eqn:Er.
    + exfalso. apply (f_equal length) in Er.
      rewrite removelast_last_length, length_fmap, Hsplit in Er by exact Hne.
      rewrite contains_sep_count in Hsep. destruct (count_sep group_name); discriminate.
    + rewrite <- Er, removelast_app_last by exact Hne.
      split; [reflexivity|]. rewrite length_fmap. exact Hsplit.
  - unfold parse_hierarchy in Hp. rewrite Hsep in Hp. injection Hp as -> _.
    split; [reflexivity|]. rewrite contains_sep_count in Hsep.
    destruct (count_sep group_name); [reflexivity | discriminate].
Qed.

Lemma hierarchy_key_of_name_witness :
  hierarchy_key "Players  -  Planners - AOs"
    (new_group "Players  -  Planners - AOs" None None)
  = ["Players"; "Planners"; "AOs"]
  /\ length (hierarchy_key "Players  -  Planners - AOs"
               (new_group "Players  -  Planners - AOs" None None)) = 3%nat.
Proof.
  exact (hierarchy_key_of_name "Players  -  Planners - AOs"
           (new_group "Players  -  Planners - AOs" None None) eq_refl).
Defined.

(** ** The table *)

Lemma render_row_length slots cur item :
  length (render_row slots cur item).1 = (3 + length slots)%nat.
Proof.
  unfold render_row. destruct item as [key g].
  destruct (row_prefix cur key (leaf_name g)) as [[[c0 c1] c2] cur'].
  cbn [fst]. rewrite length_app, length_fmap. reflexivity.
Qed.

Lemma render_row_cell slots cur key g (j : nat) slot :
  slots !! j = Some slot ->
  (render_row slots cur (key, g)).1 !! (3 + j)%nat = Some (activity_cell g slot).
Proof.
  intros Hj. unfold render_row.
  destruct (row_prefix cur key (leaf_name g)) as [[[c0 c1] c2] cur'].
  cbn [fst]. rewrite lookup_app_r by (cbn; lia). cbn [length].
  replace (3 + j - 3)%nat with j by lia.
  rewrite list_lookup_fmap, Hj. reflexivity.
Qed.

Lemma render_rows_Forall (P : list string -> Prop) slots items :
  (forall cur item, P (render_row slots cur item).1) ->
  forall cur, Forall P (render_rows slots cur items).
Proof.
  intros HP. induction items as [|item items IH]; intros cur; cbn [render_rows].
  - constructor.
  - pose proof (HP cur item) as Hrow.
    destruct (render_row slots cur item) as [row cur']. constructor; [exact Hrow|].
    apply IH.
Qed.

(** X17. Every row of a built table has three cells more than there are
    time slots: the first row holds three empty cells and the time
    slots, the second row is empty, and one row follows for each sorted
    group. *)
Theorem table_shape st table :
  result build_schedule_structure st = Returned table ->
  Forall (fun row => length row = (3 + length (time_slots st))%nat) table
  /\ table !! 0%nat = Some ([EmptyString; EmptyString; EmptyString] ++ time_slots st)
  /\ table !! 1%nat = Some (replicate (3 + length (time_slots st)) EmptyString)
  /\ length table = (2 + length (sorted_groups st))%nat.
Proof.
  unfold result. rewrite build_run. cbn [fst]. intros H.
  destruct (time_slots st) as [|slot slots] eqn:Ets; [discriminate|].
  injection H as <-. split; [|split; [|split]].
  - constructor; [reflexivity|].
    constructor; [cbn; rewrite length_replicate; reflexivity|].
    apply render_rows_Forall. intros cur item. apply render_row_length.
  - reflexivity.
  - reflexivity.
  - cbn [length]. rewrite render_rows_length. reflexivity.
Qed.

Lemma table_shape_witness :
  exists table,
    result build_schedule_structure
      (exec (add_activity "Solo" "0600" "Lunch" "";;
             set_time_period 4 "0530" "0630" 30) init) = Returned table
    /\ Forall (fun row => length row = 6%nat) table.
Proof.
  eexists. split; [vm_compute; reflexivity|].
  exact (proj1 (table_shape
                  (exec (add_activity "Solo" "0600" "Lunch" "";;
                         set_time_period 4 "0530" "0630" 30) init) _ eq_refl)).
Defined.

(** X18. The cell of a data row under a time slot is the activity of the
    group of that row at that slot, and empty when the group has none:
    activities for slots that are not on the axis are not shown. *)
Theorem table_cells st table (i j : nat) key group_data slot :
  result build_schedule_structure st = Returned table ->
  sorted_groups st !! i = Some (key, group_data) ->
  time_slots st !! j = Some slot ->
  exists row,
    table !! (2 + i)%nat = Some row
    /\ row !! (3 + j)%nat = Some (activity_cell group_data slot)
    /\ (activities group_data !! slot = None -> row !! (3 + j)%nat = Some EmptyString).
Proof.
  intros Ht Hi Hj.
  pose proof (take_drop_middle _ _ _ Hi) as Hs. symmetry in Hs.
  pose proof (table_data_row st table _ _ _ Ht Hs) as Hrow.
  rewrite length_take_le in Hrow by (apply lookup_lt_Some in Hi; lia).
  eexists. split; [exact Hrow|]. split.
  - apply render_row_cell. exact Hj.
  - intros Hnone. rewrite (render_row_cell _ _ _ _ _ _ Hj).
    unfold activity_cell. rewrite Hnone. reflexivity.
Qed.

Lemma table_cells_witness :
  let st := exec (add_activity "Solo" "0600" "Lunch" "";;
                  add_activity "Solo" "0900" "Brief" "";;
                  set_time_period 4 "0530" "0630" 30) init in
  exists table row,
    result build_schedule_structure st = Returned table
    /\ table !! 2%nat = Some row
    /\ row !! 4%nat = Some "Lunch".
Proof.
  cbv zeta. set (st := exec _ init).
  assert (Hs : exists g, sorted_groups st !! 0%nat = Some (["Solo"], g)
                         /\ activity_cell g "0600" = "Lunch")
    by (eexists; split; vm_compute; reflexivity).
  destruct Hs as (g & Hs & Hc).
  assert (Ht : exists table, result build_schedule_structure st = Returned table)
    by (eexists; vm_compute; reflexivity).
  destruct Ht as [table Ht].
  destruct (table_cells st table 0 1 _ g "0600" Ht Hs eq_refl) as (row & Hr & Hcell & _).
  exists table, row. rewrite Hc in Hcell. repeat split; assumption.
Defined.

Lemma group_by_key_keyed gs : forall acc,
  NoDup (acc.*1 ++ (keyed gs).*1) ->
  group_by_key acc gs = acc ++ keyed gs.
Proof.
  unfold group_by_key, keyed.
  induction gs as [|[name g] gs IH]; intros acc Hnd; cbn [foldl fmap list_fmap].
  - rewrite app_nil_r. reflexivity.
  - cbn [fst snd] in *.
    assert (Hfresh : Dict.mem (hierarchy_key name g) acc = false).
    { destruct (Dict.mem (hierarchy_key name g) acc) eqn:E; [|reflexivity].
      apply dict_mem_keys in E. unfold Dict.keys in E.
      apply NoDup_app in Hnd as (_ & Hdis & _). exfalso.
      apply (Hdis _ E). left. }
    rewrite dict_set_fresh by exact Hfresh.
    rewrite IH.
    + rewrite <- app_assoc. reflexivity.
    + rewrite fmap_app, <- app_assoc. exact Hnd.
Qed.

Lemma render_row_cells slots cur key g :
  drop 3 (render_row slots cur (key, g)).1 = activity_cell g <$> slots.
Proof.
  unfold render_row.
  destruct (row_prefix cur key (leaf_name g)) as [[[c0 c1] c2] cur'].
  reflexivity.
Qed.

(** X19. When no two groups of the store have the same sort key, the
    table has one data row for each group: two rows more than there are
    groups, and for every group a row that holds its activities under the
    time slots. *)
Theorem one_row_per_group st table :
  result build_schedule_structure st = Returned table ->
  NoDup (keyed (groups st)).*1 ->
  length table = (2 + length (groups st))%nat
  /\ forall group_name group_data,
       (group_name, group_data) ∈ groups st ->
       exists (i : nat) row,
         sorted_groups st !! i = Some (hierarchy_key group_name group_data, group_data)
         /\ table !! (2 + i)%nat = Some row
         /\ drop 3 row = activity_cell group_data <$> time_slots st.
Proof.
  intros Ht Hnd.
  assert (Hk : group_by_key [] (groups st) = keyed (groups st))
    by (apply (group_by_key_keyed _ []); exact Hnd).
  assert (Hperm : sorted_groups st ≡ₚ keyed (groups st)).
  { unfold sorted_groups, sorted_items. rewrite Hk. apply merge_sort_Permutation. }
  split.
  - pose proof (data_rows_count st table Ht) as [Hlen _].
    rewrite Hlen, Hk. unfold keyed. rewrite length_fmap. reflexivity.
  - intros name g Hin.
    assert (Hin' : (hierarchy_key name g, g) ∈ sorted_groups st).
    { rewrite Hperm. unfold keyed. apply list_elem_of_fmap.
      exists (name, g). split; [reflexivity | exact Hin]. }
    apply list_elem_of_lookup in Hin' as [i Hi].
    pose proof (take_drop_middle _ _ _ Hi) as Hs. symmetry in Hs.
    pose proof (table_data_row st table _ _ _ Ht Hs) as Hrow.
    rewrite length_take_le in Hrow by (apply lookup_lt_Some in Hi; lia).
    exists i. eexists. split; [exact Hi|]. split; [exact Hrow|].
    apply render_row_cells.
Qed.

Lemma one_row_per_group_witness :
  let st := exec (add_activity "Players - Planners - Leads" "0600" "CUB" "";;
                  add_activity "Solo" "0630" "Lunch" "";;
                  set_time_period 4 "0530" "0630" 30) init in
  exists table,
    result build_schedule_structure st = Returned table
    /\ length table = 4%nat.
Proof.
  cbv zeta. set (st := exec _ init).
  assert (Ht : exists table, result build_schedule_structure st = Returned table)
    by (eexists; vm_compute; reflexivity).
  destruct Ht as [table Ht]. exists table. split; [exact Ht|].
  assert (Hnd : NoDup (keyed (groups st)).*1).
  { apply (bool_decide_unpack _). vm_compute. exact I. }
  exact (proj1 (one_row_per_group st table Ht Hnd)).
Defined.

(** *** The order of the keys *)

Lemma string_compare_refl s : String.compare s s = Eq.
Proof.
  induction s as [|c s IH]; [reflexivity|]. cbn.
  unfold Ascii.compare. rewrite N.compare_refl. exact IH.
Qed.

Lemma string_compare_lt_trans x y z :
  String.compare x y = Lt -> String.compare y z = Lt -> String.compare x z = Lt.
Proof.
  intros Hxy Hyz.
  assert (Hle : String.le x z).
  { transitivity y; unfold String.le, String.leb.
    - rewrite Hxy. exact I.
    - rewrite Hyz. exact I. }
  unfold String.le, String.leb in Hle.
  destruct (String.compare x z) eqn:Hxz; [|reflexivity|destruct Hle].
  apply String.compare_eq_iff in Hxz. subst z.
  rewrite String.compare_antisym, Hxy in Hyz. discriminate.
Qed.

Lemma key_compare_eq a : forall b, key_compare a b = Eq -> a = b.
Proof.
  induction a as [|x a IH]; intros [|y b] H; cbn in H; try discriminate; [reflexivity|].
  destruct (String.compare x y) eqn:E; try discriminate.
  apply String.compare_eq_iff in E. subst y. f_equal. apply IH. exact H.
Qed.

Lemma key_compare_refl a : key_compare a a = Eq.
Proof.
  induction a as [|x a IH]; [reflexivity|]. cbn. rewrite string_compare_refl. exact IH.
Qed.

Lemma key_compare_trans a : forall b c,
  key_compare a b <> Gt -> key_compare b c <> Gt -> key_compare a c <> Gt.
Proof.
  induction a as [|x a IH]; intros [|y b] [|z c] Hab Hbc; cbn in *;
    try congruence.
  destruct (String.compare x y) eqn:Exy; try congruence.
  - apply String.compare_eq_iff in Exy. subst y.
    destruct (String.compare x z) eqn:Exz; try congruence. eauto.
  - destruct (String.compare y z) eqn:Eyz; try congruence.
    + apply String.compare_eq_iff in Eyz. subst z. rewrite Exy. discriminate.
    + rewrite (string_compare_lt_trans _ _ _ Exy Eyz). discriminate.
Qed.

#[global] Instance key_le_trans : Transitive key_le.
Proof. intros x y z. unfold key_le. apply key_compare_trans. Qed.

Lemma key_le_antisym x y : key_le x y -> key_le y x -> x.1 = y.1.
Proof.
  unfold key_le. intros Hxy Hyx. apply key_compare_eq.
  rewrite key_compare_antisym in Hyx.
  destruct (key_compare x.1 y.1); [reflexivity | cbn in Hyx; congruence | congruence].
Qed.

Lemma NoDup_fst_inj {A B} (l : list (A * B)) x y :
  NoDup l.*1 -> x ∈ l -> y ∈ l -> x.1 = y.1 -> x = y.
Proof.
  induction l as [|z l IH]; intros Hnd Hx Hy E; [inv Hx|].
  cbn in Hnd. apply NoDup_cons in Hnd as [Hz Hnd].
  inv Hx; inv Hy.
  - reflexivity.
  - exfalso. apply Hz. rewrite E. apply list_elem_of_fmap. eauto.
  - exfalso. apply Hz. rewrite <- E. apply list_elem_of_fmap. eauto.
  - apply IH; assumption.
Qed.

(** X20. The table does not depend on the order in which the groups were
    registered, as long as no two of them have the same sort key: two
    stores that hold the same groups, with the same time slots, give the
    same table. *)
Theorem table_independent_of_registration_order st1 st2 :
  time_slots st1 = time_slots st2 ->
  groups st1 ≡ₚ groups st2 ->
  NoDup (keyed (groups st1)).*1 ->
  result build_schedule_structure st1 = result build_schedule_structure st2.
Proof.
  intros Hts Hperm Hnd.
  assert (Hkp : keyed (groups st1) ≡ₚ keyed (groups st2))
    by (unfold keyed; rewrite Hperm; reflexivity).
  assert (Hnd2 : NoDup (keyed (groups st2)).*1) by (rewrite <- Hkp; exact Hnd).
  assert (Hs : sorted_groups st1 = sorted_groups st2).
  { unfold sorted_groups, sorted_items.
    rewrite !(group_by_key_keyed _ []) by assumption. cbn [app].
    apply (Sorted_unique_strong key_le).
    - intros x1 x2 H1 H2 H12 H21.
      rewrite merge_sort_Permutation in H1. rewrite merge_sort_Permutation in H2.
      rewrite <- Hkp in H2.
      apply (NoDup_fst_inj _ _ _ Hnd H1 H2). apply key_le_antisym; assumption.
    - apply Sorted_merge_sort. apply _.
    - apply Sorted_merge_sort. apply _.
    - rewrite !merge_sort_Permutation. exact Hkp. }
  unfold result. rewrite !build_run, Hts, Hs. reflexivity.
Qed.

Lemma table_independent_of_registration_order_witness :
  result build_schedule_structure
    (exec (add_group "Solo" None None;;
           add_group "Players - Planners - Leads" None None;;
           set_time_period 4 "0530" "0630" 30) init)
  = result build_schedule_structure
      (exec (add_group "Players - Planners - Leads" None None;;
             add_group "Solo" None None;;
             set_time_period 4 "0530" "0630" 30) init).
Proof.
  apply table_independent_of_registration_order.
  - reflexivity.
  - vm_compute. apply perm_swap.
  - apply (bool_decide_unpack _). vm_compute. exact I.
Defined.

Lemma dict_set_keys {V} (k : list string) (v : V) (d : list (list string * V)) :
  (Dict.set k v d).*1 = d.*1 ++ (if Dict.mem k d then [] else [k]).
Proof.
  unfold Dict.mem. induction d as [|[k0 v0] d IH]; cbn; [reflexivity|].
  destruct (decide (k = k0)) as [->|Hne]; cbn.
  - rewrite app_nil_r. reflexivity.
  - f_equal. exact IH.
Qed.

Lemma group_by_key_NoDup gs : forall acc,
  NoDup acc.*1 -> NoDup (group_by_key acc gs).*1.
Proof.
  unfold group_by_key. induction gs as [|[name g] gs IH]; intros acc Hnd;
    cbn [foldl]; [exact Hnd|].
  apply IH. rewrite dict_set_keys.
  destruct (Dict.mem (hierarchy_key name g) acc) eqn:E.
  - rewrite app_nil_r. exact Hnd.
  - apply NoDup_app. split; [exact Hnd|]. split; [|apply NoDup_singleton].
    intros x Hx Hx'. apply list_elem_of_singleton in Hx'. subst x.
    apply (proj2 (dict_mem_keys _ acc)) in Hx. congruence.
Qed.

(** X21. The data rows come in strictly ascending order of their sort
    keys, compared as tuples of strings: a row further down has a greater
    key, and no key occurs twice. *)
Theorem rows_strictly_ascending st (i j : nat) k1 g1 k2 g2 :
  (i < j)%nat ->
  sorted_groups st !! i = Some (k1, g1) ->
  sorted_groups st !! j = Some (k2, g2) ->
  key_compare k1 k2 = Lt.
Proof.
  intros Hij Hi Hj.
  destruct (sorted_groups_sorted st) as [Hsorted Hperm].
  apply Sorted_StronglySorted in Hsorted; [|apply _].
  assert (Hnd : NoDup (sorted_groups st).*1).
  { rewrite Hperm. apply group_by_key_NoDup. constructor. }
  assert (Hle : key_le (k1, g1) (k2, g2)).
  { rewrite <- (take_drop (S i) (sorted_groups st)) in Hsorted.
    apply StronglySorted_app in Hsorted as (Hall & _ & _).
    apply Hall.
    - apply list_elem_of_lookup. exists i. rewrite lookup_take_lt by lia. exact Hi.
    - apply list_elem_of_lookup. exists (j - S i)%nat. rewrite lookup_drop.
      replace (S i + (j - S i))%nat with j by lia. exact Hj. }
  unfold key_le in Hle. cbn [fst] in Hle.
  destruct (key_compare k1 k2) eqn:E; [|reflexivity|congruence].
  exfalso. apply key_compare_eq in E. subst k2.
  assert (i = j); [|lia].
  apply (NoDup_lookup _ _ _ k1 Hnd); rewrite list_lookup_fmap.
  - rewrite Hi. reflexivity.
  - rewrite Hj. reflexivity.
Qed.

Lemma rows_strictly_ascending_witness :
  key_compare ["Players"; "Planners"; "Leads"] ["Solo"] = Lt.
Proof.
  assert (Hs : exists g1 g2,
             sorted_groups
               (exec (add_group "Solo" None None;;
                      add_group "Players - Planners - Leads" None None) init)
             = [(["Players"; "Planners"; "Leads"], g1); (["Solo"], g2)])
    by (do 2 eexists; vm_compute; reflexivity).
  destruct Hs as (g1 & g2 & Hs).
  apply (rows_strictly_ascending
           (exec (add_group "Solo" None None;;
                  add_group "Players - Planners - Leads" None None) init)
           0 1 _ g1 _ g2); [lia | rewrite Hs; reflexivity | rewrite Hs; reflexivity].
Defined.

(** X22. The first two cells of a row of depth 2 or 3 that follows a row
    of depth 1, 2 or 3. Column 0 is empty when the two rows have the same
    top-level label and shows the label otherwise. Column 1 of a depth-2
    row always shows its second-level label; column 1 of a depth-3 row is
    empty when the row before has depth 2 or 3 and the same second-level
    label, whatever the top-level labels are, and shows the label
    otherwise. *)
Theorem prefix_cells_after_row st table pre k1 g1 k2 g2 post :
  result build_schedule_structure st = Returned table ->
  sorted_groups st = pre ++ (k1, g1) :: (k2, g2) :: post ->
  (1 <= length k1 <= 3)%nat -> (2 <= length k2 <= 3)%nat ->
  exists row,
    table !! (3 + length pre)%nat = Some row
    /\ row !! 0%nat = Some (if decide (top_label k2 = top_label k1) then EmptyString
                            else top_label k2)
    /\ row !! 1%nat
       = Some (if decide (length k2 = 3%nat /\ (2 <= length k1)%nat
                          /\ second_label k2 = second_label k1)
               then EmptyString else second_label k2).
Proof.
  intros Ht Hs Hl1 Hl2.
  set (slots := time_slots st).
  pose proof (table_data_row st table (pre ++ [(k1, g1)]) (k2, g2) post Ht) as H.
  rewrite <- app_assoc in H. specialize (H Hs).
  rewrite length_app in H. cbn [length] in H.
  replace (2 + (length pre + 1))%nat with (3 + length pre)%nat in H by lia.
  eexists. split; [exact H|]. fold slots. rewrite tracker_after_snoc.
  set (cur := tracker_after slots (None, None) pre).
  destruct k1 as [|a1 [|b1 [|c1 [|? ?]]]]; cbn in Hl1; try lia;
    destruct k2 as [|a2 [|b2 [|c2 [|? ?]]]]; cbn in Hl2; try lia;
    cbn -[decide]; unfold span;
    repeat match goal with
           | |- context [decide ?P] => destruct (decide P)
           end;
    first [ split; reflexivity
          | exfalso; intuition (first [congruence | lia])
          | exfalso;
            match goal with
            | n : ¬ _ |- _ => apply n; repeat split; first [congruence | lia]
            end ].
Qed.

Lemma prefix_cells_after_row_witness :
  let st := exec (add_group "Staff" None None;;
                  add_group "Staff - Planners - Leads" None None;;
                  set_time_period 4 "0530" "0630" 30) init in
  exists table row,
    result build_schedule_structure st = Returned table
    /\ table !! 3%nat = Some row
    /\ row !! 0%nat = Some EmptyString
    /\ row !! 1%nat = Some "Planners".
Proof.
  cbv zeta. set (st := exec _ init).
  assert (Hs : exists g1 g2, sorted_groups st
            = [] ++ (["Staff"], g1) :: (["Staff"; "Planners"; "Leads"], g2) :: [])
    by (do 2 eexists; vm_compute; reflexivity).
  destruct Hs as (g1 & g2 & Hs).
  assert (Ht : exists table, result build_schedule_structure st = Returned table)
    by (eexists; vm_compute; reflexivity).
  destruct Ht as [table Ht].
  destruct (prefix_cells_after_row st table [] _ g1 _ g2 [] Ht Hs
              ltac:(cbn; lia) ltac:(cbn; lia)) as (row & Hr & H0 & H1).
  exists table, row. repeat split; assumption.
Defined.

(** X23. The label ["0000"] can only be the first slot of an axis: a
    midnight reached after the start is written ["2400"]. *)
Theorem midnight_only_first fuel start_time end_time interval_minutes slots (k : nat) :
  generate_time_slots fuel start_time end_time interval_minutes = Returned slots ->
  slots !! k = Some "0000" ->
  k = 0%nat.
Proof.
  intros H Hk.
  assert (Hi : 1 <= interval_minutes).
  { destruct (Z.le_gt_cases 1 interval_minutes) as [Hi|Hi]; [exact Hi|].
    exfalso. apply (generate_nonpositive_no_return fuel start_time end_time
                      interval_minutes slots); [lia | exact H]. }
  apply generate_returned in H as (a & b & n & _ & -> & _).
  assert (Hlt : (k < n)%nat).
  { apply lookup_lt_Some in Hk. unfold labels_from in Hk.
    rewrite length_fmap, length_seq in Hk. exact Hk. }
  rewrite labels_from_lookup in Hk by exact Hlt. injection Hk as Hk.
  unfold slot_label in Hk.
  destruct (Z.eqb_spec ((a + Z.of_nat k * interval_minutes) mod 1440) 0) as [Hm|Hm].
  - destruct (Z.ltb_spec a (a + Z.of_nat k * interval_minutes)) as [Hl|Hl];
      [discriminate Hk | nia].
  - cbn [andb] in Hk. apply strftime_midnight in Hk. contradiction.
Qed.

Lemma midnight_only_first_witness :
  generate_time_slots 4 "0000" "0100" 30 = Returned ["0000"; "0030"; "0100"]
  /\ 0%nat = 0%nat.
Proof.
  assert (H : generate_time_slots 4 "0000" "0100" 30
              = Returned ["0000"; "0030"; "0100"]) by reflexivity.
  split; [exact H|].
  exact (midnight_only_first 4 "0000" "0100" 30 _ 0 H eq_refl).
Defined.
